(** * A shallow embedding of the channel-manager bot (src/main.py)

    Characters are modelled as [ascii], i.e. Latin-1 code points
    U+0000..U+00FF; a Python [str] whose code points all lie in that range
    is a Coq [string] (or [list ascii]) of the same length.  On that range
    Python's [\d] is exactly [0-9] and [str.isspace] / [\s] is exactly the
    set [ws_char] below, so the regular expressions and [str.strip] are
    modelled without approximation there.  [validate_channel_id], whose
    behaviour outside that range is part of its specification, is
    modelled on lists of Unicode code points instead. *)

From Stdlib Require Import ZArith QArith Ascii String Bool Lia.
From stdpp Require Import base list strings gmap.

Open Scope string_scope.
Open Scope list_scope.
Infix "+s+" := String.append (at level 60, right associativity).

(* ------------------------------------------------------------------ *)
(** ** Constants (main.py, "Configuration constants") *)

Definition MAX_BATCH_MESSAGES : nat := 100.
Definition MAX_RETRIES : Z := 3.
Definition TEXT_FILE_SIZE_LIMIT : Z := 1024000.
Definition MAX_MESSAGE_LENGTH : nat := 4096.
Definition MAX_CAPTION_LENGTH : nat := 1024.

(* ------------------------------------------------------------------ *)
(** ** Character classes *)

Definition code (c : ascii) : nat := nat_of_ascii c.

Definition in_range (lo hi : nat) (c : ascii) : bool :=
  (lo <=? code c)%nat && (code c <=? hi)%nat.

(** [\d] on Latin-1 *)
Definition is_digit (c : ascii) : bool := in_range 48 57 c.
(** [str.isspace] (and [\s]) on Latin-1: \t \n \v \f \r, \x1c-\x1f,
    space, \x85, \xa0. *)
Definition ws_char (c : ascii) : bool :=
  in_range 9 13 c || in_range 28 32 c || (code c =? 133)%nat || (code c =? 160)%nat.

Definition NL : ascii := Ascii.ascii_of_nat 10.

(* ------------------------------------------------------------------ *)
(** ** Python [re.match] for the two channel-id patterns

    [validate_channel_id] is modelled on the whole range of Python's
    [str]: a string is the list of its code points ([ustr]), so that
    [\d] can be any Unicode decimal digit.  A small backtracking matcher
    in continuation-passing style.  [REnd] is Python's [$] without
    MULTILINE: it matches at the end of the string and also just before
    a newline that is the last character. *)

(** A Python [str] as the list of its code points *)
Definition ustr := list Z.

(** A Latin-1 string as a [ustr] *)
Definition ustr_of (s : string) : ustr := map (fun c => Z.of_nat (code c)) (list_ascii_of_string s).

Module Re.

Inductive regex :=
| RChar (c : Z)
| RClass (p : Z -> bool)
| RRep (p : Z -> bool) (lo hi : nat)   (* [class]{lo,hi}, greedy *)
| RSeq (r1 r2 : regex)
| REnd.

Fixpoint rep (p : Z -> bool) (lo hi : nat) (s : ustr) (k : ustr -> bool) : bool :=
  match hi with
  | O => (lo =? 0)%nat && k s
  | S hi' =>
      match s with
      | x :: t => p x && rep p (pred lo) hi' t k
      | [] => false
      end || ((lo =? 0)%nat && k s)
  end.

Fixpoint matches (r : regex) (s : ustr) (k : ustr -> bool) : bool :=
  match r with
  | RChar c => match s with x :: t => Z.eqb x c && k t | [] => false end
  | RClass p => match s with x :: t => p x && k t | [] => false end
  | RRep p lo hi => rep p lo hi s k
  | RSeq r1 r2 => matches r1 s (fun t => matches r2 t k)
  | REnd =>
      match s with
      | [] => k s
      | [x] => Z.eqb x 10 && k s
      | _ => false
      end
  end.

(** [re.match(pattern, s)] is truthy *)
Definition re_match (r : regex) (s : ustr) : bool := matches r s (fun _ => true).

End Re.

Import Re.

Definition cp_range (lo hi c : Z) : bool := (lo <=? c)%Z && (c <=? hi)%Z.

(** [[a-zA-Z]]: a character class of two ASCII ranges (no IGNORECASE) *)
Definition cp_alpha (c : Z) : bool := cp_range 97 122 c || cp_range 65 90 c.
(** [[a-zA-Z0-9_]] *)
Definition cp_word (c : Z) : bool := cp_alpha c || cp_range 48 57 c || Z.eqb c 95.

(** The code points of general category Nd (decimal digits) in the
    Unicode 14.0 database of Python 3.11: what [\d] matches in a [str]
    pattern there (later versions add a few ranges). *)
Definition nd_ranges : list (Z * Z) :=
  [(48, 57); (1632, 1641); (1776, 1785); (1984, 1993); (2406, 2415); (2534, 2543);
   (2662, 2671); (2790, 2799); (2918, 2927); (3046, 3055); (3174, 3183); (3302, 3311);
   (3430, 3439); (3558, 3567); (3664, 3673); (3792, 3801); (3872, 3881); (4160, 4169);
   (4240, 4249); (6112, 6121); (6160, 6169); (6470, 6479); (6608, 6617); (6784, 6793);
   (6800, 6809); (6992, 7001); (7088, 7097); (7232, 7241); (7248, 7257); (42528, 42537);
   (43216, 43225); (43264, 43273); (43472, 43481); (43504, 43513); (43600, 43609);
   (44016, 44025); (65296, 65305); (66720, 66729); (68912, 68921); (69734, 69743);
   (69872, 69881); (69942, 69951); (70096, 70105); (70384, 70393); (70736, 70745);
   (70864, 70873); (71248, 71257); (71360, 71369); (71472, 71481); (71904, 71913);
   (72016, 72025); (72784, 72793); (73040, 73049); (73120, 73129); (92768, 92777);
   (92864, 92873); (93008, 93017); (120782, 120831); (123200, 123209); (123632, 123641);
   (125264, 125273); (130032, 130041)]%Z.

Definition unicode_nd (c : Z) : bool := existsb (fun '(lo, hi) => cp_range lo hi c) nd_ranges.

(** [r'^@[a-zA-Z][a-zA-Z0-9_]{4,31}$'] *)
Definition username_pattern : regex :=
  RSeq (RChar 64) (RSeq (RClass cp_alpha) (RSeq (RRep cp_word 4 31) REnd)).

Section ChannelId.

(** [\d]: the decimal digits of the running Python's Unicode database
    ([unicode_nd] for Python 3.11). *)
Variable is_decimal : Z -> bool.

(** [r'^-100\d{10}$'] *)
Definition id_pattern : regex :=
  RSeq (RChar 45) (RSeq (RChar 49) (RSeq (RChar 48) (RSeq (RChar 48)
    (RSeq (RRep is_decimal 10 10) REnd)))).

(** [validate_channel_id] (main.py, lines 341-350) *)
Definition validate_channel_id (channel_id : ustr) : bool :=
  match channel_id with
  | [] => false
  | _ => re_match username_pattern channel_id || re_match id_pattern channel_id
  end.

(** The shapes named by the specification: ['@'], a letter, then 4..31
    characters of [[a-zA-Z0-9_]]; or ["-100"] and exactly ten digits
    (characters of [is_decimal]). *)
Definition username_shape (l : ustr) : bool :=
  match l with
  | c0 :: c :: body =>
      Z.eqb c0 64 && cp_alpha c && forallb cp_word body
      && (4 <=? length body)%nat && (length body <=? 31)%nat
  | _ => false
  end.

Definition numeric_shape (l : ustr) : bool :=
  match l with
  | a :: b :: c :: d :: ds =>
      Z.eqb a 45 && Z.eqb b 49 && Z.eqb c 48 && Z.eqb d 48
      && forallb is_decimal ds && (length ds =? 10)%nat
  | _ => false
  end.

Definition channel_shape (s : ustr) : bool := username_shape s || numeric_shape s.

End ChannelId.

(** ["-100"] followed by the fullwidth digits "１２３４５６７８９０" *)
Definition fullwidth_channel_id : ustr :=
  ustr_of "-100" ++ [65297; 65298; 65299; 65300; 65301; 65302; 65303; 65304; 65305; 65296]%Z.

Definition end_ok (t : ustr) : bool := matches REnd t (fun _ => true).

(* ------------------------------------------------------------------ *)
(** ** Batch messages and [add_to_batch] (main.py, lines 840-955) *)

(** The message dictionaries built by [add_to_batch]; [MOther] is a
    stored record whose "type" is none of the four (the dispatch loops
    have no [else] branch for it). *)
Inductive batch_message :=
| MText (content parse_mode : string)
| MPhoto (file_id caption parse_mode : string)
| MVideo (file_id caption parse_mode : string)
| MDocument (file_id caption parse_mode : string)
| MOther (ty : string).

(** The parts of [update.message] the handler reads.  [None] and [""]
    are both falsy for [text]; [photo] is the tuple of sizes. *)
Record incoming := {
  in_text : option string;
  in_photo : list string;
  in_video : option string;
  in_document : option (string * option string);  (* file_id, mime_type *)
  in_caption : option string
}.

(** What the handler learns from the downloaded document: its size and
    the result of [decode('utf-8')] ([None]: UnicodeDecodeError). *)
Record text_file := {
  file_size : Z;
  decoded : option string
}.

Inductive reply :=
| RAccessDenied
| RBatchFull
| RFileTooLarge
| RFileError
| RAddedFromFile (added total : nat)
| RUnsupported
| RAdded (size : nat).

Definition truthy (s : option string) : option string :=
  match s with Some t => if String.eqb t "" then None else Some t | None => None end.

Definition or_empty (s : option string) : string :=
  match s with Some t => t | None => "" end.

(** The if/elif chain of [add_to_batch] that builds [message_data]. *)
Inductive incoming_kind :=
| InMessage (m : batch_message)
| InTextFile
| InUnsupported.

Definition classify (u : incoming) : incoming_kind :=
  match truthy (in_text u) with
  | Some t => InMessage (MText t "Markdown")
  | None =>
    match last (in_photo u) with
    | Some fid => InMessage (MPhoto fid (or_empty (truthy (in_caption u))) "Markdown")
    | None =>
      match in_video u with
      | Some fid => InMessage (MVideo fid (or_empty (truthy (in_caption u))) "Markdown")
      | None =>
        match in_document u with
        | Some (fid, mime) =>
            if bool_decide (mime = Some "text/plain") then InTextFile
            else InMessage (MDocument fid (or_empty (truthy (in_caption u))) "Markdown")
        | None => InUnsupported
        end
      end
    end
  end.

(** [str.strip()] *)
Definition lstrip (l : list ascii) : list ascii :=
  (fix go l := match l with c :: t => if ws_char c then go t else l | [] => [] end) l.

Definition strip (s : string) : string :=
  string_of_list_ascii (rev (lstrip (rev (lstrip (list_ascii_of_string s))))).

(** [text.split("\n\n")]: leftmost, non-overlapping occurrences. *)
Fixpoint split_blank (l : list ascii) : list (list ascii) :=
  match l with
  | [] => [[]]
  | c :: rest =>
      match rest with
      | d :: rest' =>
          if Ascii.eqb c NL && Ascii.eqb d NL then [] :: split_blank rest'
          else match split_blank rest with
               | chunk :: chunks => (c :: chunk) :: chunks
               | [] => [[c]]
               end
      | [] => [[c]]
      end
  end.

Definition split_delim (s : string) : list string :=
  map string_of_list_ascii (split_blank (list_ascii_of_string s)).

(** [validate_message_content] (main.py, lines 394-400) *)
Definition validate_message_content (content : string) (is_caption : bool) : bool :=
  if String.eqb content "" then false
  else (String.length content <=?
          (if is_caption then MAX_CAPTION_LENGTH else MAX_MESSAGE_LENGTH))%nat.

(** The loop of lines 911-923: returns the batch and [added_count]. *)
Fixpoint add_messages (batch : list batch_message) (msgs : list string)
    (added_count : nat) : list batch_message * nat :=
  match msgs with
  | [] => (batch, added_count)
  | msg :: rest =>
      if (MAX_BATCH_MESSAGES <=? length batch)%nat then (batch, added_count)
      else if validate_message_content msg false
      then add_messages (batch ++ [MText msg "Markdown"]) rest (S added_count)
      else add_messages batch rest added_count
  end.

(** Lines 907-923: split, strip, drop empty segments, append. *)
Definition ingest_text (batch : list batch_message) (text_content : string)
    : list batch_message * nat :=
  let messages := split_delim text_content in
  let messages := map strip (filter (fun msg => strip msg <> "") messages) in
  add_messages batch messages 0.

(** [add_to_batch]; the batch is [context.user_data["batch"]] (absent
    means empty), returned after the in-place updates. *)
Definition add_to_batch (admins : list string) (user_id : string)
    (u : incoming) (file : text_file) (batch : list batch_message)
    : list batch_message * reply :=
  if bool_decide (user_id ∉ admins) then (batch, RAccessDenied)
  else if (MAX_BATCH_MESSAGES <=? length batch)%nat then (batch, RBatchFull)
  else
    match classify u with
    | InTextFile =>
        if (TEXT_FILE_SIZE_LIMIT <? file_size file)%Z then (batch, RFileTooLarge)
        else match decoded file with
             | None => (batch, RFileError)
             | Some text_content =>
                 let '(batch', added_count) := ingest_text batch text_content in
                 (batch', RAddedFromFile added_count (length batch'))
             end
    | InUnsupported => (batch, RUnsupported)
    | InMessage message_data =>
        (batch ++ [message_data], RAdded (length (batch ++ [message_data])))
    end.

Definition nl2 : string := String NL (String NL "").

(* ------------------------------------------------------------------ *)
(** ** Admins (ConfigManager, lines 136-201)

    [OWNER_ID] stands for the string [str(OWNER_ID)]. *)

Section Admins.

Variable OWNER_ID : string.

(** The "admins" entry of [_initialize_default_config] *)
Definition default_admins : list string := [OWNER_ID].

(** [list.remove(x)]: drops the first occurrence (callers check [in]). *)
Fixpoint list_remove (x : string) (l : list string) : list string :=
  match l with
  | [] => []
  | y :: t => if String.eqb x y then t else y :: list_remove x t
  end.

Definition add_admin (admin_id : string) (admins : list string) : bool * list string :=
  if bool_decide (admin_id ∉ admins) then (true, admins ++ [admin_id])
  else (false, admins).

Definition remove_admin (admin_id : string) (admins : list string) : bool * list string :=
  if String.eqb admin_id OWNER_ID then (false, admins)
  else if bool_decide (admin_id ∈ admins) then (true, list_remove admin_id admins)
  else (false, admins).

Inductive admin_op := AddAdmin (id : string) | RemoveAdmin (id : string).

Definition apply_admin_op (admins : list string) (op : admin_op) : list string :=
  match op with
  | AddAdmin id => snd (add_admin id admins)
  | RemoveAdmin id => snd (remove_admin id admins)
  end.

Definition run_admin_ops (admins : list string) (ops : list admin_op) : list string :=
  fold_left apply_admin_op ops admins.

End Admins.

(* ------------------------------------------------------------------ *)
(** ** The dispatcher: [execute_post] (lines 1214-1320) and
    [execute_scheduled_job] (lines 2313-2400)

    The chat platform is an oracle [bot_ok : nat -> bool]: whether the
    n-th send call of the run returns normally ([true]) or raises
    ([false]).  Every sequence of outcomes is one such oracle. *)

Record settings := {
  default_delay : Q;     (* a float in the source; only its value matters *)
  max_retries : Z;
  footer : string
}.

Inductive send_payload :=
| PMessage (chat_id text parse_mode : string)
| PPhoto (chat_id photo caption parse_mode : string)
| PVideo (chat_id video caption parse_mode : string)
| PDocument (chat_id document caption parse_mode : string).

Inductive event :=
| ESend (p : send_payload) (ok : bool)
| ESleep (d : Q)
| ELogError (chat_id : string) (attempt : nat).

Record dstate := {
  calls : nat;
  trace : list event;
  successful_posts : nat;
  failed_posts : nat;
  channel_results : gmap string (nat * nat)   (* success, failed *)
}.

Definition with_footer (footer s : string) : string :=
  if String.eqb footer "" then s else s +s+ nl2 +s+ footer.

(** The [if/elif] chain inside [try]: the call made for a message. *)
Definition payload_of (footer chat_id : string) (m : batch_message) : option send_payload :=
  match m with
  | MText content pm => Some (PMessage chat_id (with_footer footer content) pm)
  | MPhoto fid caption pm => Some (PPhoto chat_id fid (with_footer footer caption) pm)
  | MVideo fid caption pm => Some (PVideo chat_id fid (with_footer footer caption) pm)
  | MDocument fid caption pm => Some (PDocument chat_id fid (with_footer footer caption) pm)
  | MOther _ => None
  end.

Section Dispatch.

Variable bot_ok : nat -> bool.

Definition emit (e : event) (st : dstate) : dstate :=
  {| calls := calls st; trace := trace st ++ [e];
     successful_posts := successful_posts st; failed_posts := failed_posts st;
     channel_results := channel_results st |}.

(** The body of [try]: [true] when no exception was raised. *)
Definition try_send (footer chat_id : string) (m : batch_message) (st : dstate)
    : bool * dstate :=
  match payload_of footer chat_id m with
  | None => (true, st)
  | Some p =>
      let ok := bot_ok (calls st) in
      (ok, {| calls := S (calls st); trace := trace st ++ [ESend p ok];
              successful_posts := successful_posts st; failed_posts := failed_posts st;
              channel_results := channel_results st |})
  end.

Definition bump (succ : bool) (chat_id : string) (st : dstate) : dstate :=
  let '(a, b) := default (0, 0)%nat (channel_results st !! chat_id) in
  {| calls := calls st; trace := trace st;
     successful_posts := if succ then S (successful_posts st) else successful_posts st;
     failed_posts := if succ then failed_posts st else S (failed_posts st);
     channel_results := <[chat_id := if succ then (S a, b) else (a, S b)]> (channel_results st) |}.

(** [for attempt in range(max_retries)] of [execute_post].  As in the
    source, the [if success and delay > 0] test sits inside this loop,
    after the [try] statement. *)
Fixpoint post_attempts (s : settings) (chat_id : string) (m : batch_message)
    (fuel attempt : nat) (success : bool) (st : dstate) : bool * dstate :=
  match fuel with
  | O => (success, st)
  | S fuel' =>
      let '(ok, st1) := try_send (footer s) chat_id m st in
      if ok then (true, bump true chat_id st1)                     (* break *)
      else
        let st2 := emit (ELogError chat_id attempt) st1 in
        let st3 := if Z.eqb (Z.of_nat attempt) (max_retries s - 1)
                   then bump false chat_id st2 else st2 in
        let st4 := if success && negb (Qle_bool (default_delay s) 0)
                   then emit (ESleep (default_delay s)) st3 else st3 in
        post_attempts s chat_id m fuel' (S attempt) success st4
  end.

Definition post_messages (s : settings) (chat_id : string)
    (batch : list batch_message) (st : dstate) : dstate :=
  fold_left (fun st m => snd (post_attempts s chat_id m (Z.to_nat (max_retries s)) 0 false st))
    batch st.

Definition post_channels (s : settings) (selected : list string)
    (batch : list batch_message) (st : dstate) : dstate :=
  fold_left (fun st chat_id =>
      let st0 := {| calls := calls st; trace := trace st;
                    successful_posts := successful_posts st; failed_posts := failed_posts st;
                    channel_results := <[chat_id := (0, 0)%nat]> (channel_results st) |} in
      post_messages s chat_id batch st0)
    selected st.

(** [for attempt in range(max_retries)] of [execute_scheduled_job]:
    no per-channel table; the delay test follows this loop. *)
Fixpoint job_attempts (s : settings) (chat_id : string) (m : batch_message)
    (fuel attempt : nat) (st : dstate) : bool * dstate :=
  match fuel with
  | O => (false, st)
  | S fuel' =>
      let '(ok, st1) := try_send (footer s) chat_id m st in
      if ok then
        (true, {| calls := calls st1; trace := trace st1;
                  successful_posts := S (successful_posts st1);
                  failed_posts := failed_posts st1;
                  channel_results := channel_results st1 |})
      else
        let st2 := emit (ELogError chat_id attempt) st1 in
        let st3 := if Z.eqb (Z.of_nat attempt) (max_retries s - 1)
                   then {| calls := calls st2; trace := trace st2;
                           successful_posts := successful_posts st2;
                           failed_posts := S (failed_posts st2);
                           channel_results := channel_results st2 |}
                   else st2 in
        job_attempts s chat_id m fuel' (S attempt) st3
  end.

Definition job_messages (s : settings) (chat_id : string)
    (batch : list batch_message) (st : dstate) : dstate :=
  fold_left (fun st m =>
      let '(success, st') := job_attempts s chat_id m (Z.to_nat (max_retries s)) 0 st in
      if success && negb (Qle_bool (default_delay s) 0)
      then emit (ESleep (default_delay s)) st' else st')
    batch st.

Definition job_channels (s : settings) (channels : list string)
    (batch : list batch_message) (st : dstate) : dstate :=
  fold_left (fun st chat_id => job_messages s chat_id batch st) channels st.

End Dispatch.

Definition dstate0 : dstate :=
  {| calls := 0; trace := []; successful_posts := 0; failed_posts := 0;
     channel_results := ∅ |}.

(* ------------------------------------------------------------------ *)
(** ** Naive datetimes and [datetime.strptime]

    [strptime] follows CPython's [_strptime]: the format is compiled to a
    regular expression (a run of whitespace becomes [\s+], each
    directive its group below), [re.match] takes the first match in
    backtracking order, and "unconverted data remains" or an invalid
    date (year 0, day past the month's end, second 60/61) is a
    [ValueError], modelled as [None]. *)

Record datetime := {
  year : Z; month : Z; day : Z;
  hour : Z; minute : Z; second : Z; microsecond : Z
}.

Definition dt_fields (d : datetime) : list Z :=
  [year d; month d; day d; hour d; minute d; second d; microsecond d].

Fixpoint lex_le (a b : list Z) : bool :=
  match a, b with
  | x :: a', y :: b' => (x <? y)%Z || ((x =? y)%Z && lex_le a' b')
  | _, _ => true
  end.

(** [a <= b] on datetimes *)
Definition dt_le (a b : datetime) : bool := lex_le (dt_fields a) (dt_fields b).

Definition is_leap (y : Z) : bool :=
  ((y mod 4 =? 0)%Z && negb (y mod 100 =? 0)%Z) || (y mod 400 =? 0)%Z.

Definition days_in_month (y m : Z) : Z :=
  if (m =? 2)%Z then (if is_leap y then 29%Z else 28%Z)
  else if (m =? 4)%Z || (m =? 6)%Z || (m =? 9)%Z || (m =? 11)%Z then 30%Z else 31%Z.

(** [dt + timedelta(days=1)]; [None] is the [OverflowError] past
    year 9999. *)
Definition add_one_day (d : datetime) : option datetime :=
  let '(y, m, dd) :=
    if (day d <? days_in_month (year d) (month d))%Z then (year d, month d, day d + 1)%Z
    else if (month d <? 12)%Z then (year d, month d + 1, 1)%Z
    else (year d + 1, 1, 1)%Z in
  if (9999 <? y)%Z then None
  else Some {| year := y; month := m; day := dd; hour := hour d; minute := minute d;
               second := second d; microsecond := microsecond d |}.

(** [datetime.combine(now.date(), t)] for [t = time(h, m, s)] *)
Definition combine_date (now : datetime) (h m sec : Z) : datetime :=
  {| year := year now; month := month now; day := day now;
     hour := h; minute := m; second := sec; microsecond := 0 |}.

Module Strptime.

Inductive ftok := FLit (c : ascii) | FWs | FDir (d : ascii).

(** [_TimeRE.pattern]: whitespace runs become [\s+], [%x] a directive. *)
Fixpoint compile_format (f : list ascii) : list ftok :=
  match f with
  | [] => []
  | c :: rest =>
      if Ascii.eqb c "%" then
        match rest with
        | d :: rest' => FDir d :: compile_format rest'
        | [] => [FLit c]
        end
      else if ws_char c then
        match compile_format rest with
        | FWs :: ts => FWs :: ts
        | ts => FWs :: ts
        end
      else FLit c :: compile_format rest
  end.

Definition ch (c : ascii) : ascii -> bool := Ascii.eqb c.
Definition dig : ascii -> bool := is_digit.
Definition rng (lo hi : ascii) : ascii -> bool := in_range (code lo) (code hi).

(** The directive groups of CPython's [_TimeRE], alternatives in order. *)
Definition dir_alts (d : ascii) : list (list (ascii -> bool)) :=
  if Ascii.eqb d "Y" then [[dig; dig; dig; dig]]
  else if Ascii.eqb d "m" then [[ch "1"; rng "0" "2"]; [ch "0"; rng "1" "9"]; [rng "1" "9"]]
  else if Ascii.eqb d "d" then
    [[ch "3"; rng "0" "1"]; [rng "1" "2"; dig]; [ch "0"; rng "1" "9"]; [rng "1" "9"];
     [ch " "; rng "1" "9"]]
  else if Ascii.eqb d "H" then [[ch "2"; rng "0" "3"]; [rng "0" "1"; dig]; [dig]]
  else if Ascii.eqb d "M" then [[rng "0" "5"; dig]; [dig]]
  else if Ascii.eqb d "S" then [[ch "6"; rng "0" "1"]; [rng "0" "5"; dig]; [dig]]
  else [].

Fixpoint match_classes (cs : list (ascii -> bool)) (s : list ascii)
    : option (list ascii * list ascii) :=
  match cs with
  | [] => Some ([], s)
  | p :: cs' =>
      match s with
      | x :: s' =>
          if p x then
            match match_classes cs' s' with
            | Some (v, r) => Some (x :: v, r)
            | None => None
            end
          else None
      | [] => None
      end
  end.

(** Suffixes left by a greedy [\s+], longest run first. *)
Fixpoint ws_suffixes (s : list ascii) : list (list ascii) :=
  match s with
  | x :: s' => if ws_char x then ws_suffixes s' ++ [s'] else []
  | [] => []
  end.

(** All matches in backtracking order, with the captured groups. *)
Fixpoint fmatch (ts : list ftok) (s : list ascii)
    : list (list (ascii * list ascii) * list ascii) :=
  match ts with
  | [] => [([], s)]
  | FLit c :: ts' =>
      match s with
      | x :: s' => if Ascii.eqb x c then fmatch ts' s' else []
      | [] => []
      end
  | FWs :: ts' => flat_map (fmatch ts') (ws_suffixes s)
  | FDir d :: ts' =>
      flat_map (fun alt =>
          match match_classes alt s with
          | Some (v, s') => map (fun '(caps, r) => ((d, v) :: caps, r)) (fmatch ts' s')
          | None => []
          end) (dir_alts d)
  end.

Definition digits_value (v : list ascii) : Z :=
  fold_left (fun acc c => 10 * acc + Z.of_nat (code c - 48))%Z v 0%Z.

Fixpoint group (caps : list (ascii * list ascii)) (d : ascii) (dflt : Z) : Z :=
  match caps with
  | [] => dflt
  | (d', v) :: caps' => if Ascii.eqb d d' then digits_value v else group caps' d dflt
  end.

Definition strptime (s fmt : string) : option datetime :=
  match fmatch (compile_format (list_ascii_of_string fmt)) (list_ascii_of_string s) with
  | (caps, []) :: _ =>
      let y := group caps "Y" 1900 in
      let mo := group caps "m" 1 in
      let d := group caps "d" 1 in
      let sec := group caps "S" 0 in
      if (1 <=? y)%Z && (d <=? days_in_month y mo)%Z && (sec <=? 59)%Z
      then Some {| year := y; month := mo; day := d; hour := group caps "H" 0;
                   minute := group caps "M" 0; second := sec; microsecond := 0 |}
      else None
  | _ => None
  end.

End Strptime.

Export Strptime.

(** Python's result: a value, or an exception escaping the function. *)
Inductive outcome (A : Type) := Ret (a : A) | Raise.
Arguments Ret {A} a.
Arguments Raise {A}.

Definition schedule_formats : list string :=
  ["%Y-%m-%d %H:%M:%S"; "%Y-%m-%d %H:%M"; "%d/%m/%Y %H:%M"; "%d.%m.%Y %H:%M"; "%H:%M"].

(** [validate_schedule_time] (lines 363-392); both [datetime.now()]
    calls return [now]. *)
Definition validate_schedule_time (now : datetime) (time_str : string)
    : outcome (option datetime) :=
  if String.eqb time_str "" then Ret None
  else
    (fix try_formats (fmts : list string) : outcome (option datetime) :=
       match fmts with
       | [] => Ret None
       | fmt :: rest =>
           match strptime time_str fmt with
           | None => try_formats rest
           | Some p =>
               if String.eqb fmt "%H:%M" then
                 let dt := combine_date now (hour p) (minute p) (second p) in
                 if dt_le dt now then
                   match add_one_day dt with Some d => Ret (Some d) | None => Raise end
                 else Ret (Some dt)
               else Ret (Some p)
           end
       end) schedule_formats.

Definition mk_dt (y mo d h mi s us : Z) : datetime :=
  {| year := y; month := mo; day := d; hour := h; minute := mi; second := s; microsecond := us |}.

(* ------------------------------------------------------------------ *)
(** ** [execute_post] with its session and statistics effects *)

(** [context.user_data]: the batch and the selected-channel set (a
    Python set, listed in its iteration order). *)
Record session := {
  s_batch : list batch_message;
  s_selected : list string
}.

Record stats := {
  st_posts : nat;
  st_batches : nat;
  st_last_post : option string;
  st_last_post_channels : list string
}.

Record admin_stat := { a_posts : nat; a_batches : nat; a_last_action : option string }.

Inductive admin_action := APosts | ABatches.

(** [update_admin_stats] *)
Definition update_admin_stats (admin_id : string) (action : admin_action)
    (now_iso : string) (m : gmap string admin_stat) : gmap string admin_stat :=
  let a := default {| a_posts := 0; a_batches := 0; a_last_action := None |} (m !! admin_id) in
  let a' := match action with
            | APosts => {| a_posts := S (a_posts a); a_batches := a_batches a;
                           a_last_action := Some now_iso |}
            | ABatches => {| a_posts := a_posts a; a_batches := S (a_batches a);
                             a_last_action := Some now_iso |}
            end in
  <[admin_id := a']> m.

Definition execute_post (bot_ok : nat -> bool) (s : settings) (user_id now_iso : string)
    (sess : session) (stt : stats) (ast : gmap string admin_stat)
    : session * stats * gmap string admin_stat * dstate :=
  match s_batch sess, s_selected sess with
  | [], _ | _, [] => (sess, stt, ast, dstate0)             (* "Missing batch or channels!" *)
  | _, _ =>
      let st := post_channels bot_ok s (s_selected sess) (s_batch sess) dstate0 in
      let stt' := {| st_posts := st_posts stt + successful_posts st;
                     st_batches := S (st_batches stt);
                     st_last_post := Some now_iso;
                     st_last_post_channels := s_selected sess |} in
      let ast' := update_admin_stats user_id ABatches now_iso
                    (update_admin_stats user_id APosts now_iso ast) in
      ({| s_batch := []; s_selected := [] |}, stt', ast', st)
  end.

(* ------------------------------------------------------------------ *)
(** ** Scheduled jobs: [run_scheduled_jobs] (lines 2279-2310) and
    [ConfigManager.cleanup_expired_jobs] (lines 257-278)

    ["scheduled_posts"] is a Python dict, modelled as an association
    list in insertion (= iteration) order.  [run_scheduled_jobs]
    iterates this very dict ([get_scheduled_jobs] returns the live
    object, and [remove_scheduled_job] deletes from it: the cached
    config is fresh within one tick).  CPython's dict iterator raises
    [RuntimeError] at its next step once the dict's size has changed. *)

(** What [datetime.fromisoformat] returns: a naive datetime, an aware
    one (with a UTC offset), or nothing when it raises ([ValueError], or
    [TypeError] on a value that is not a string).  Datetimes are
    microseconds since [datetime.min] (0001-01-01 00:00), counted on
    their own date and time fields. *)
Inductive iso_result := IsoNaive (us : Z) | IsoAware (us : Z) | IsoInvalid.

Definition US_PER_HOUR : Z := 3600000000.

(** [datetime.max], 9999-12-31 23:59:59.999999 *)
Definition DATETIME_MAX_US : Z := 315537897599999999.

(** A job record; [j_schedule_time] is the value read by
    [job_data.get("schedule_time", "")]: [Some ""] when the key is
    absent, [None] when the stored value is not a string. *)
Record job := {
  j_schedule_time : option string;
  j_batch : list batch_message;
  j_channels : list string;
  j_admin_id : string
}.

Inductive tlog :=
| LWarnRemoved (job_id : string)      (* "Removed job ... with invalid schedule time" *)
| LExec (job_id : string)             (* execute_scheduled_job is run *)
| LInfoExecuted (job_id : string)     (* "Successfully executed and removed job ..." *)
| LErrorJob (job_id : string)         (* "Error executing job ..." *)
| LCleaned (n : nat)                  (* "Cleaned up n expired jobs" *)
| LRunnerError.                       (* "Error in scheduled job runner" *)

Record tstate := {
  scheduled_posts : list (string * job);
  log : list tlog
}.

Definition log_event (e : tlog) (st : tstate) : tstate :=
  {| scheduled_posts := scheduled_posts st; log := log st ++ [e] |}.

Fixpoint dict_delete (k : string) (d : list (string * job)) : list (string * job) :=
  match d with
  | [] => []
  | (k', v) :: d' => if String.eqb k k' then d' else (k', v) :: dict_delete k d'
  end.

Definition dict_mem (k : string) (d : list (string * job)) : bool :=
  existsb (fun kv => String.eqb k (fst kv)) d.

(** [ConfigManager.remove_scheduled_job] *)
Definition remove_scheduled_job (job_id : string) (st : tstate) : bool * tstate :=
  if dict_mem job_id (scheduled_posts st)
  then (true, {| scheduled_posts := dict_delete job_id (scheduled_posts st); log := log st |})
  else (false, st).

Section Scheduler.

(** [datetime.fromisoformat]; [datetime.now()] is naive. *)
Variable fromisoformat : string -> iso_result.

(** Whether [execute_scheduled_job] raises for a job id. *)
Variable exec_raises : string -> bool.

Definition parse_time (j : job) : iso_result :=
  match j_schedule_time j with Some s => fromisoformat s | None => IsoInvalid end.

(** The schedule time as far as comparing it with the naive
    [current_time] goes: [None] when parsing raises, or when the
    comparison raises [TypeError] on an aware datetime; the same
    [except (ValueError, TypeError)] catches both. *)
Definition job_time (j : job) : option Z :=
  match parse_time j with IsoNaive t => Some t | _ => None end.

(** Whether [schedule_time + timedelta(hours=1)] raises [OverflowError]
    (past [datetime.max]); naive or aware alike. *)
Definition hour_overflows (j : job) : bool :=
  match parse_time j with
  | IsoNaive w | IsoAware w => (DATETIME_MAX_US <? w + US_PER_HOUR)%Z
  | IsoInvalid => false
  end.

(** The first loop of [run_scheduled_jobs].  [n0] is the dict's size
    when the iterator was created; before each step the iterator checks
    it.  Returns the state and [Some jobs_to_execute], or [None] for the
    [RuntimeError]. *)
Fixpoint scan_due (current_time : Z) (n0 : nat) (items : list (string * job))
    (acc : list (string * job)) (st : tstate) : tstate * option (list (string * job)) :=
  if negb (length (scheduled_posts st) =? n0)%nat then (st, None)
  else
    match items with
    | [] => (st, Some acc)
    | (job_id, job_data) :: rest =>
        match job_time job_data with
        | Some t =>
            if (t <=? current_time)%Z
            then scan_due current_time n0 rest (acc ++ [(job_id, job_data)]) st
            else scan_due current_time n0 rest acc st
        | None =>
            let st' := snd (remove_scheduled_job job_id st) in
            scan_due current_time n0 rest acc (log_event (LWarnRemoved job_id) st')
        end
    end.

Definition run_job (st : tstate) (item : string * job) : tstate :=
  let job_id := fst item in
  let st := log_event (LExec job_id) st in
  if exec_raises job_id
  then snd (remove_scheduled_job job_id (log_event (LErrorJob job_id) st))
  else log_event (LInfoExecuted job_id) (snd (remove_scheduled_job job_id st)).

(** [cleanup_expired_jobs]; [current_time] is its own [datetime.now()].
    An [OverflowError] is not caught: it leaves the first loop before
    anything is deleted, and the store is unchanged ([Raise]).  The aware
    case of [job_time] is [TypeError] at [current_time > ...]. *)
Definition cleanup_expired_jobs (current_time : Z) (st : tstate) : outcome tstate :=
  if existsb (fun kv => hour_overflows (snd kv)) (scheduled_posts st) then Raise
  else
    let expired_jobs :=
      map fst (List.filter (fun kv => match job_time (snd kv) with
                                 | Some t => (t + US_PER_HOUR <? current_time)%Z
                                 | None => true
                                 end) (scheduled_posts st)) in
    let d := fold_left (fun d k => dict_delete k d) expired_jobs (scheduled_posts st) in
    match expired_jobs with
    | [] => Ret {| scheduled_posts := d; log := log st |}
    | _ => Ret {| scheduled_posts := d; log := log st ++ [LCleaned (length expired_jobs)] |}
    end.

(** [current_time] is read for the scan, [cleanup_time] by
    [cleanup_expired_jobs]; an exception from the cleanup reaches the
    outer handler. *)
Definition run_scheduled_jobs (current_time cleanup_time : Z) (st : tstate) : tstate :=
  let items := scheduled_posts st in
  match scan_due current_time (length items) items [] st with
  | (st1, None) => log_event LRunnerError st1
  | (st1, Some jobs_to_execute) =>
      let st2 := fold_left run_job jobs_to_execute st1 in
      match cleanup_expired_jobs cleanup_time st2 with
      | Ret st3 => st3
      | Raise => log_event LRunnerError st2
      end
  end.

End Scheduler.

(* ------------------------------------------------------------------ *)
(** ** [schedule_batch_confirm] (lines 1090-1134)

    The conversation state returned, the user data it writes, and the
    persisted configuration (channels and ["scheduled_posts"]), which
    the handler only reads. *)

Inductive conv_state := SCHEDULE_BATCH | END.

Inductive sched_reply := RInvalidTime | RNotFuture | RNoChannels | RSelectChannels.

Record sched_user_data := {
  u_batch : list batch_message;
  u_schedule_time : option datetime;
  u_selected : list string
}.

Record persisted := {
  p_channels : list string;
  p_scheduled_posts : list (string * job)
}.

Definition schedule_batch_confirm (now : datetime) (text : string)
    (ud : sched_user_data) (cfg : persisted)
    : conv_state * sched_reply * sched_user_data * persisted :=
  let time_input := strip text in
  match validate_schedule_time now time_input with
  | Raise => (SCHEDULE_BATCH, RInvalidTime, ud, cfg)     (* not reached: see C9 *)
  | Ret None => (SCHEDULE_BATCH, RInvalidTime, ud, cfg)
  | Ret (Some schedule_dt) =>
      if dt_le schedule_dt now then (SCHEDULE_BATCH, RNotFuture, ud, cfg)
      else
        let ud' := {| u_batch := u_batch ud; u_schedule_time := Some schedule_dt;
                      u_selected := [] |} in
        match p_channels cfg with
        | [] => (END, RNoChannels, ud', cfg)
        | _ => (END, RSelectChannels, ud', cfg)
        end
  end.

(* ------------------------------------------------------------------ *)
(** ** Auxiliary definitions used in the statements below *)

Definition text_update : incoming :=
  {| in_text := Some "hi"; in_photo := []; in_video := None; in_document := None;
     in_caption := None |}.

Definition no_file : text_file := {| file_size := 0; decoded := None |}.

Definition mk_text (c : string) : batch_message := MText c "Markdown".

(** The segments kept by the loop: non-empty and within the length cap. *)
Definition fits (c : string) : bool :=
  negb (String.eqb c "") && (String.length c <=? MAX_MESSAGE_LENGTH)%nat.

Definition segments (text_content : string) : list string :=
  List.filter fits (map strip (filter (fun msg => strip msg <> "") (split_delim text_content))).

Definition doc_file_update : incoming :=
  {| in_text := None; in_photo := []; in_video := None;
     in_document := Some ("file1", Some "text/plain"); in_caption := None |}.

Definition is_sleep (e : event) : bool := match e with ESleep _ => true | _ => false end.

Definition no_sleep (st : dstate) : Prop := Forall (fun e => is_sleep e = false) (trace st).

Definition two_texts : list batch_message := [MText "first" "Markdown"; MText "second" "Markdown"].
Definition delay_settings : settings := {| default_delay := 1; max_retries := 3; footer := "" |}.

Definition tstate_of (d : list (string * job)) : tstate := {| scheduled_posts := d; log := [] |}.

Definition iso_stub (s : string) : iso_result :=
  if String.eqb s "2024-05-10T09:00:00" then IsoNaive 0%Z else IsoInvalid.

Definition job_at (t : string) : job :=
  {| j_schedule_time := Some t; j_batch := [MText "hello" "Markdown"];
     j_channels := ["-1001111111111"]; j_admin_id := "7" |}.

Definition fixed_channels_cfg : persisted :=
  {| p_channels := ["-1002489624380"; "-1002504723776"]; p_scheduled_posts := [] |}.

Definition ud_with_batch : sched_user_data :=
  {| u_batch := [MText "hello" "Markdown"]; u_schedule_time := None; u_selected := [] |}.

(* ------------------------------------------------------------------ *)
(** ** Further handlers and helpers of main.py and utilsvalidators.py *)

(** The characters [int()] strips from a [str]: CPython maps non-ASCII
    Unicode whitespace to a space and then skips ASCII [isspace]
    characters, so \x1c-\x1f, which [str.isspace] accepts, are not
    stripped ([int("\x1c42")] raises [ValueError]). *)
Definition int_ws (c : ascii) : bool :=
  in_range 9 13 c || (code c =? 32)%nat || (code c =? 133)%nat || (code c =? 160)%nat.

Definition int_lstrip (l : list ascii) : list ascii :=
  (fix go l := match l with c :: t => if int_ws c then go t else l | [] => [] end) l.

(** The stripping done by [int()] *)
Definition int_strip (l : list ascii) : list ascii := rev (int_lstrip (rev (int_lstrip l))).

Definition digit_char (d : Z) : ascii := ascii_of_nat (48 + Z.to_nat d).

(** The decimal digits of [n >= 0], most significant first; [fuel]
    bounds their number. *)
Fixpoint dec_digits (fuel : nat) (n : Z) : list ascii :=
  match fuel with
  | O => []
  | S f => if (n <? 10)%Z then [digit_char n]
           else dec_digits f (n / 10) ++ [digit_char (n mod 10)]
  end.

(** [str(n)] for a Python int *)
Definition py_str (n : Z) : string :=
  let m := Z.abs n in
  let ds := string_of_list_ascii (dec_digits (S (Z.to_nat (Z.log2 m))) m) in
  if (n <? 0)%Z then "-" +s+ ds else ds.

(** The digits of a literal: decimal digits with single underscores
    between them, underscores dropped. *)
Fixpoint digit_groups (l : list ascii) : option (list ascii) :=
  match l with
  | [] => None
  | c :: t =>
      if is_digit c then
        match t with
        | [] => Some [c]
        | u :: t' =>
            if Ascii.eqb u "_" then option_map (cons c) (digit_groups t')
            else option_map (cons c) (digit_groups t)
        end
      else None
  end.

Definition PY_INT_MAX_STR_DIGITS : nat := 4300.

(** [int(s)] for a [str] ([None]: [ValueError]). *)
Definition py_int (s : string) : option Z :=
  let l := int_strip (list_ascii_of_string s) in
  let '(sign, body) :=
    match l with
    | c :: r => if Ascii.eqb c "+" then (1%Z, r)
                else if Ascii.eqb c "-" then ((-1)%Z, r) else (1%Z, l)
    | [] => (1%Z, [])
    end in
  match digit_groups body with
  | Some ds => if (length ds <=? PY_INT_MAX_STR_DIGITS)%nat
               then Some (sign * digits_value ds)%Z else None
  | None => None
  end.

(** [validate_user_id] (lines 352-361) *)
Definition validate_user_id (user_id : string) : bool :=
  if String.eqb user_id "" then false
  else match py_int user_id with
       | Some uid => (0 <? uid)%Z && (uid <? 10 ^ 10)%Z
       | None => false
       end.

(** [sub in s] for strings *)
Fixpoint py_contains (sub s : string) : bool :=
  String.prefix sub s || match s with EmptyString => false | String _ s' => py_contains sub s' end.

(** The conversation states returned by the input handlers *)
Inductive conv_result := ADMIN_MANAGEMENT | CHANNEL_MANAGEMENT | POST_SETTINGS | CONV_END.

Inductive admin_reply := AInvalidId | AAdded | AAlreadyAdmin | ARemoved | ANotRemoved | ANoAction.

(** [handle_admin_input] (lines 2056-2094) *)
Definition handle_admin_input (owner text setting_type : string) (admins : list string)
    : conv_result * admin_reply * list string :=
  let user_input := strip text in
  if negb (validate_user_id user_input) then (ADMIN_MANAGEMENT, AInvalidId, admins)
  else if py_contains "add" setting_type then
    let '(ok, admins') := add_admin user_input admins in
    (CONV_END, if ok then AAdded else AAlreadyAdmin, admins')
  else if py_contains "remove" setting_type then
    let '(ok, admins') := remove_admin owner user_input admins in
    (CONV_END, if ok then ARemoved else ANotRemoved, admins')
  else (CONV_END, ANoAction, admins).

Fixpoint run_admin_inputs (owner : string) (inputs : list (string * string))
    (admins : list string) : list string :=
  match inputs with
  | [] => admins
  | (text, setting_type) :: rest =>
      run_admin_inputs owner rest (snd (handle_admin_input owner text setting_type admins))
  end.

Definition all_digits (l : list ascii) : Prop := Forall (fun c => is_digit c = true) l.

Definition all_int_ws (l : list ascii) : Prop := Forall (fun c => int_ws c = true) l.

(** The values [user_data["setting_type"]] can hold: it is written only
    by [setting_input_prompt] (line 1852), reached only for the callbacks
    set_delay, set_retries and set_footer (line 1688-1690), and read with
    the default "" (line 2067). *)
Definition stored_setting_types : list string := [""; "set_delay"; "set_retries"; "set_footer"].

Definition admins_ok (owner : string) (admins : list string) : Prop :=
  owner ∈ admins /\ forall a, a ∈ admins -> a = owner \/ validate_user_id a = true.

(** A channel entry of the configuration *)
Record channel_info := { ci_name : string; ci_type : string; ci_subscribers : string }.

(** [config["channels"]]: a dict, kept in insertion order *)
Definition channels := list (string * channel_info).

Definition ch_mem (k : string) (chs : channels) : bool :=
  existsb (fun p => String.eqb (fst p) k) chs.

(** [del d[k]] *)
Fixpoint ch_delete (k : string) (chs : channels) : channels :=
  match chs with
  | [] => []
  | p :: t => if String.eqb (fst p) k then t else p :: ch_delete k t
  end.

(** [ConfigManager.add_channel] (lines 203-210) *)
Definition add_channel (channel_id : string) (info : channel_info) (chs : channels)
    : bool * channels :=
  if negb (ch_mem channel_id chs) then (true, chs ++ [(channel_id, info)]) else (false, chs).

(** [ConfigManager.remove_channel] (lines 212-219) *)
Definition remove_channel (channel_id : string) (chs : channels) : bool * channels :=
  if ch_mem channel_id chs then (true, ch_delete channel_id chs) else (false, chs).

(** [s.split(sep, 1)] when [sep in s]: the parts before and after the
    first occurrence. *)
Fixpoint split_first (sep : ascii) (l : list ascii) : option (list ascii * list ascii) :=
  match l with
  | [] => None
  | c :: t => if Ascii.eqb c sep then Some ([], t)
              else match split_first sep t with
                   | Some (a, b) => Some (c :: a, b)
                   | None => None
                   end
  end.

Inductive channel_reply := CInvalidId | CAdded | CExists | CAccessError | CRemoved | CNotFound | CNoAction.

Section ChannelInput.

(** [context.bot.get_chat]: the chat's type and member count, or [None]
    when it raises. *)
Variable get_chat : string -> option (string * string).

(** [handle_channel_input] (lines 2096-2160) *)
Definition handle_channel_input (text setting_type : string) (chs : channels)
    : conv_result * channel_reply * channels :=
  let user_input := strip text in
  if py_contains "add" setting_type then
    let '(channel_id, channel_name) :=
      match split_first "|" (list_ascii_of_string user_input) with
      | Some (a, b) => (strip (string_of_list_ascii a), strip (string_of_list_ascii b))
      | None => (user_input, user_input)
      end in
    if negb (validate_channel_id unicode_nd (ustr_of channel_id)) then (CHANNEL_MANAGEMENT, CInvalidId, chs)
    else match get_chat channel_id with
         | None => (CHANNEL_MANAGEMENT, CAccessError, chs)
         | Some (ty, subs) =>
             let info := {| ci_name := channel_name; ci_type := ty; ci_subscribers := subs |} in
             let '(ok, chs') := add_channel channel_id info chs in
             (CONV_END, if ok then CAdded else CExists, chs')
         end
  else if py_contains "remove" setting_type then
    let '(ok, chs') := remove_channel user_input chs in
    (CONV_END, if ok then CRemoved else CNotFound, chs')
  else (CONV_END, CNoAction, chs).

End ChannelInput.

(** Python floats as [float()] returns them *)
Inductive pyfloat := PFin (q : Q) | PNaN | PInf (neg : bool).

(** [0 <= x <= 10]: comparisons with NaN are false. *)
Definition delay_in_range (x : pyfloat) : bool :=
  match x with
  | PFin q => Qle_bool 0 q && Qle_bool q 10
  | PNaN => false
  | PInf neg => false
  end.

(** [str.lower()] on Latin-1 characters *)
Definition py_lower_char (c : ascii) : ascii :=
  let n := nat_of_ascii c in
  if ((65 <=? n) && (n <=? 90) || (192 <=? n) && (n <=? 222) && negb (n =? 215))%nat
  then ascii_of_nat (n + 32) else c.

Definition py_lower (s : string) : string :=
  string_of_list_ascii (map py_lower_char (list_ascii_of_string s)).

Definition MAX_FOOTER_LENGTH : nat := 200.

Section SettingsInput.

(** [float()]: [None] when it raises [ValueError]. *)
Variable py_float : string -> option pyfloat.

Definition set_delay (s : settings) (q : Q) : settings :=
  {| default_delay := q; max_retries := max_retries s; footer := footer s |}.
Definition set_retries (s : settings) (n : Z) : settings :=
  {| default_delay := default_delay s; max_retries := n; footer := footer s |}.
Definition set_footer (s : settings) (f : string) : settings :=
  {| default_delay := default_delay s; max_retries := max_retries s; footer := f |}.

(** [handle_settings_input] (lines 2162-2242) *)
Definition handle_settings_input (text setting_type : string) (s : settings)
    : conv_result * settings :=
  let user_input := strip text in
  if String.eqb setting_type "set_delay" then
    match py_float user_input with
    | None => (POST_SETTINGS, s)
    | Some x =>
        if delay_in_range x then
          match x with PFin q => (CONV_END, set_delay s q) | _ => (POST_SETTINGS, s) end
        else (POST_SETTINGS, s)
    end
  else if String.eqb setting_type "set_retries" then
    match py_int user_input with
    | None => (POST_SETTINGS, s)
    | Some n => if (1 <=? n)%Z && (n <=? 10)%Z then (CONV_END, set_retries s n)
                else (POST_SETTINGS, s)
    end
  else if String.eqb setting_type "set_footer" then
    if String.eqb (py_lower user_input) "clear" then (CONV_END, set_footer s "")
    else if (String.length user_input <=? MAX_FOOTER_LENGTH)%nat
    then (CONV_END, set_footer s user_input)
    else (POST_SETTINGS, s)
  else (CONV_END, s).

End SettingsInput.

(** [s.split(sep, maxsplit)] with a one-character separator ([None]:
    no limit); [cur] holds the current part, reversed. *)
Fixpoint py_split_go (sep : ascii) (max : option nat) (cur l : list ascii) : list (list ascii) :=
  match l with
  | [] => [rev cur]
  | c :: t =>
      if Ascii.eqb c sep then
        match max with
        | Some O => [rev cur ++ l]
        | Some (S m) => rev cur :: py_split_go sep (Some m) [] t
        | None => rev cur :: py_split_go sep None [] t
        end
      else py_split_go sep max (c :: cur) t
  end.

Definition py_split (sep : ascii) (max : option nat) (s : string) : list string :=
  map string_of_list_ascii (py_split_go sep max [] (list_ascii_of_string s)).

(** [l[i]], raising [IndexError] out of range *)
Definition py_index {A} (l : list A) (i : Z) : outcome A :=
  let j := if (i <? 0)%Z then (Z.of_nat (length l) + i)%Z else i in
  if (j <? 0)%Z then Raise
  else match nth_error l (Z.to_nat j) with Some a => Ret a | None => Raise end.

(** [l[i:j]] *)
Definition py_slice_bound (n i : Z) : Z :=
  if (i <? 0)%Z then Z.max 0 (n + i) else Z.min i n.

Definition py_slice {A} (l : list A) (i j : Z) : list A :=
  let n := Z.of_nat (length l) in
  let a := py_slice_bound n i in
  let b := py_slice_bound n j in
  take (Z.to_nat (b - a)) (drop (Z.to_nat a) l).

(** What [button_handler] (lines 1532-1708) does with a callback. *)
Inductive action :=
| ADenied                      (* "Access denied." *)
| ACallback (name : string)    (* a branch [data == name] *)
| AToggle                      (* [toggle_channel_selection] *)
| APage (page : Z)             (* the channel keyboard at [page] *)
| ADetail (job_id : string)    (* [view_schedule_details] *)
| ADelete (job_id : string)    (* [delete_schedule] *)
| AIgnored.                    (* no branch matches *)

(** The [data == ...] branches, in the groups the prefix tests split them into *)
Definition callbacks_1 : list string :=
  ["main_menu"; "cancel_operation"; "admin_menu"; "admin_list"; "admin_add";
   "admin_remove"; "admin_stats"; "cancel_admin"; "channel_menu"; "channel_list";
   "channel_add"; "channel_remove"; "channel_stats"; "cancel_channel"; "batch_menu";
   "batch_show"; "batch_clear"; "batch_post"; "batch_schedule_menu"; "cancel_schedule"].

Definition callbacks_2 : list string :=
  ["select_all_channels"; "unselect_all_channels"; "continue_post"].

Definition callbacks_3 : list string :=
  ["preview_post"; "confirm_post"; "cancel_post"; "edit_channels"; "schedule_menu";
   "schedule_list"].

Definition callbacks_4 : list string :=
  ["settings_menu"; "set_delay"; "set_retries"; "set_footer"; "toggle_notifications";
   "save_settings"; "cancel_settings"; "show_stats"; "monthly_trends"].

Definition button_handler (admins : list string) (user_id data : string) : outcome action :=
  if bool_decide (user_id ∉ admins) then Ret ADenied
  else if bool_decide (data ∈ callbacks_1) then Ret (ACallback data)
  else if String.prefix "toggle_channel_" data then Ret AToggle
  else if bool_decide (data ∈ callbacks_2) then Ret (ACallback data)
  else if String.prefix "channel_page_" data then
    match py_index (py_split "_" None data) (-1) with
    | Ret s => match py_int s with Some page => Ret (APage page) | None => Raise end
    | Raise => Raise
    end
  else if bool_decide (data ∈ callbacks_3) then Ret (ACallback data)
  else if String.prefix "schedule_detail_" data then
    match py_index (py_split "_" (Some 2%nat) data) 2 with
    | Ret j => Ret (ADetail j) | Raise => Raise end
  else if String.prefix "delete_schedule_" data then
    match py_index (py_split "_" (Some 2%nat) data) 2 with
    | Ret j => Ret (ADelete j) | Raise => Raise end
  else if bool_decide (data ∈ callbacks_4) then Ret (ACallback data)
  else Ret AIgnored.

(** [toggle_channel_selection] (lines 1789-1807): the new selection *)
Definition toggle_channel_selection (data : string) (selected : gset string) : outcome (gset string) :=
  match py_index (py_split "_" (Some 2%nat) data) 2 with
  | Ret channel_id =>
      Ret (if bool_decide (channel_id ∈ selected) then selected ∖ {[channel_id]}
           else selected ∪ {[channel_id]})
  | Raise => Raise
  end.

(** Button labels are kept as the UTF-8 bytes of the source. *)
Definition utf8 (l : list nat) : string := string_of_list_ascii (map ascii_of_nat l).

Record button := { b_text : string; b_data : string }.

Definition MARK_SELECTED : string := utf8 [226; 128; 154; 195; 186; 195; 150].

Definition MARK_UNSELECTED : string := utf8 [226; 128; 154; 194; 168; 195; 186].

(** [build_channel_selection_keyboard] (lines 494-526): the rows and
    [total_pages] *)
Definition build_channel_selection_keyboard (selected : gset string) (chs : channels)
    (page per_page : Z) : list (list button) * Z :=
  let total_pages := ((Z.of_nat (length chs) + per_page - 1) / per_page)%Z in
  let start_idx := (page * per_page)%Z in
  let end_idx := (start_idx + per_page)%Z in
  let rows := map (fun '(channel_id, info) =>
      let status := if bool_decide (channel_id ∈ selected) then MARK_SELECTED else MARK_UNSELECTED in
      [{| b_text := status +s+ " " +s+ ci_name info; b_data := "toggle_channel_" +s+ channel_id |}])
      (py_slice chs start_idx end_idx) in
  let nav := (if (0 <? page)%Z
              then [{| b_text := utf8 [226; 128; 154; 194; 168; 195; 150; 195; 148; 226; 136; 143; 195; 168]
                                 +s+ " Previous";
                       b_data := "channel_page_" +s+ py_str (page - 1) |}] else [])
             ++ (if (page <? total_pages - 1)%Z
                 then [{| b_text := utf8 [226; 128; 154; 195; 187; 194; 176; 195; 148; 226; 136; 143; 195; 168]
                                    +s+ " Next";
                          b_data := "channel_page_" +s+ py_str (page + 1) |}] else []) in
  let nav_rows := if (1 <? total_pages)%Z then match nav with [] => [] | _ => [nav] end else [] in
  (rows ++ nav_rows ++
   [[{| b_text := utf8 [226; 128; 154; 195; 186; 195; 150] +s+ " Select All";
        b_data := "select_all_channels" |}];
    [{| b_text := utf8 [226; 128; 154; 195; 185; 195; 165] +s+ " Unselect All";
        b_data := "unselect_all_channels" |}];
    [{| b_text := utf8 [239; 163; 191; 195; 188; 195; 172; 194; 167] +s+ " Continue";
        b_data := "continue_post" |}]], total_pages).

Section ScheduleList.

(** [datetime.fromisoformat(s).strftime("%m/%d %H:%M")], [None] when
    it raises *)
Variable strftime_iso : string -> option string.

(** [create_schedule_list_keyboard] (lines 528-546) *)
Definition create_schedule_list_keyboard (scheduled_jobs : list (string * job)) : list (list button) :=
  map (fun '(job_id, j) =>
         let schedule_time := match j_schedule_time j with Some s => s | None => "Unknown" end in
         let time_str := match strftime_iso schedule_time with Some t => t | None => "Invalid" end in
         [{| b_text := utf8 [239; 163; 191; 195; 188; 195; 172; 195; 150] +s+ " " +s+ time_str
                       +s+ " (" +s+ py_str (Z.of_nat (length (j_channels j))) +s+ " channels)";
             b_data := "schedule_detail_" +s+ job_id |}])
      (take 10 scheduled_jobs)
  ++ [[{| b_text := utf8 [239; 163; 191; 195; 188; 195; 174; 195; 180] +s+ " Back to Main Menu";
          b_data := "main_menu" |}]].

End ScheduleList.

(** The channels whose toggle buttons a keyboard shows, as
    [toggle_channel_selection] reads them back *)
Definition toggle_targets (kb : list (list button)) : list string :=
  omap (fun b => if String.prefix "toggle_channel_" (b_data b)
                 then match py_index (py_split "_" (Some 2%nat) (b_data b)) 2 with
                      | Ret id => Some id | Raise => None end
                 else None) (concat kb).

Definition tot (st : dstate) : nat := successful_posts st + failed_posts st.

Definition cres (st : dstate) (ch : string) : nat :=
  let '(a, b) := default (0, 0)%nat (channel_results st !! ch) in a + b.

(** [channel_results[channel_id] = {"success": 0, "failed": 0}] *)
Definition reset (ch : string) (st : dstate) : dstate :=
  {| calls := calls st; trace := trace st;
     successful_posts := successful_posts st; failed_posts := failed_posts st;
     channel_results := <[ch := (0, 0)%nat]> (channel_results st) |}.

(** [is_valid_time_format] (utilsvalidators.py, lines 7-13); [h, m =
    map(int, ...)] raises [ValueError] unless there are exactly two parts. *)
Definition is_valid_time_format (time_str : string) : bool :=
  match py_split ":" None time_str with
  | [hs; ms] =>
      match py_int hs with
      | None => false
      | Some h =>
          match py_int ms with
          | None => false
          | Some m => (0 <=? h)%Z && (h <=? 23)%Z && (0 <=? m)%Z && (m <=? 59)%Z
          end
      end
  | _ => false
  end.

(** [sanitize_markdown] (lines 282-292) *)
Definition markdown_chars : list ascii :=
  ["*"; "_"; "`"; "["; "]"; "("; ")"; "~"; ">"; "#"; "+"; "-"; "="; "|"; "{"; "}"; "."; "!"]%char.

Definition BACKSLASH : ascii := ascii_of_nat 92.

(** [text.replace(c, r)] for a one-character [c] *)
Definition replace_char (c : ascii) (r : list ascii) (l : list ascii) : list ascii :=
  flat_map (fun x => if Ascii.eqb x c then r else [x]) l.

Definition sanitize_markdown (text : string) : string :=
  if String.eqb text "" then ""
  else string_of_list_ascii
         (fold_left (fun l c => replace_char c [BACKSLASH; c] l) markdown_chars
            (list_ascii_of_string text)).

(** [format_timestamp(timestamp, relative=True)] (lines 316-339), the
    only way it is called.  Datetimes are microseconds as in
    [iso_result]: [fromiso_dt] is [datetime.fromisoformat], giving a naive
    datetime, an aware one (with a UTC offset) or raising [ValueError];
    [now0] and [now1] are the two [datetime.now()] calls, both naive.
    [now - dt] raises [TypeError] on an aware [dt], and nothing catches it
    ([Raise]). *)
Section FormatTimestamp.

Variable fromiso_dt : string -> iso_result.

Definition US_PER_DAY : Z := 86400000000.

Definition format_timestamp_relative (timestamp : option string) (now0 now1 : Z) : outcome string :=
  let dt := match timestamp with
            | None | Some "" => IsoNaive now0
            | Some s => fromiso_dt s
            end in
  match dt with
  | IsoInvalid => Ret "Invalid timestamp"
  | IsoAware _ => Raise
  | IsoNaive dt =>
      let diff := (now1 - dt)%Z in
      let days := (diff / US_PER_DAY)%Z in
      let seconds := ((diff mod US_PER_DAY) / 1000000)%Z in
      Ret (if (0 <? days)%Z then py_str days +s+ " days ago"
           else if (3600 <? seconds)%Z then py_str (seconds / 3600) +s+ " hours ago"
           else if (60 <? seconds)%Z then py_str (seconds / 60) +s+ " minutes ago"
           else "Just now")
  end.

End FormatTimestamp.

(** One-pass escaping, and its inverse *)
Definition escape_md (c : ascii) : list ascii :=
  if bool_decide (c ∈ markdown_chars) then [BACKSLASH; c] else [c].

Fixpoint unescape_md (l : list ascii) : list ascii :=
  match l with
  | b :: ((c :: t) as r) => if Ascii.eqb b BACKSLASH && bool_decide (c ∈ markdown_chars)
                            then c :: unescape_md t else b :: unescape_md r
  | l => l
  end.

Definition expired (fromisoformat : string -> iso_result) (current_time : Z) (kv : string * job) : bool :=
  match job_time fromisoformat (snd kv) with
  | Some t => (t + US_PER_HOUR <? current_time)%Z
  | None => true
  end.

Definition is_due (fromisoformat : string -> iso_result) (now : Z) (kv : string * job) : bool :=
  match job_time fromisoformat (snd kv) with Some t => (t <=? now)%Z | None => false end.

(** The log lines [run_scheduled_jobs] writes for one executed job *)
Definition job_log (exec_raises : string -> bool) (kv : string * job) : list tlog :=
  [LExec (fst kv); if exec_raises (fst kv) then LErrorJob (fst kv) else LInfoExecuted (fst kv)].

Definition dummy_button : button := {| b_text := ""; b_data := "" |}.


Definition settings_w : settings := {| default_delay := 1%Q; max_retries := 3; footer := "" |}.

Definition session_w : session := {| s_batch := [MText "hello" "Markdown"]; s_selected := ["-1001111111111"; "-1002222222222"] |}.

Definition stats_w : stats := {| st_posts := 0; st_batches := 0; st_last_post := None; st_last_post_channels := [] |}.

Definition fromiso_w (s : string) : iso_result :=
  if String.eqb s "2024-05-10T12:00:00" then IsoNaive 7200000000%Z
  else if String.eqb s "2024-05-10T12:00:00+00:00" then IsoAware 7200000000%Z
  else IsoInvalid.

Definition fromiso_two (s : string) : iso_result :=
  if String.eqb s "2024-05-10T09:00:00" then IsoNaive 0%Z
  else if String.eqb s "2024-05-10T12:00:00" then IsoNaive 10800000000%Z
  else if String.eqb s "9999-12-31T23:30:00" then IsoNaive 315537895800000000%Z
  else IsoInvalid.

Definition jobs_w : list (string * job) :=
  [("a", job_at "2024-05-10T09:00:00"); ("b", job_at "2024-05-10T12:00:00"); ("c", job_at "bad")].

(* ================================================================== *)
(** * Properties *)

(* ------------------------------------------------------------------ *)
(** ** Admins *)

Lemma list_remove_elem_of (x y : string) (l : list string) :
  y ∈ l -> x <> y -> y ∈ list_remove x l.
Proof.
  induction l as [|z l IH]; simpl; intros Hin Hne; [by apply elem_of_nil in Hin|].
  apply elem_of_cons in Hin.
  destruct (String.eqb_spec x z) as [->|Hxz].
  - destruct Hin as [->|Hin]; [congruence|exact Hin].
  - apply elem_of_cons. destruct Hin as [->|Hin]; [by left|right; by apply IH].
Qed.

Lemma apply_admin_op_keeps_owner (owner : string) (admins : list string) (op : admin_op) :
  owner ∈ admins -> owner ∈ apply_admin_op owner admins op.
Proof.
  intros H. destruct op as [id|id]; simpl.
  - unfold add_admin. case_bool_decide; simpl; [|exact H].
    apply elem_of_app. by left.
  - unfold remove_admin. destruct (String.eqb_spec id owner) as [->|Hne]; simpl; [exact H|].
    case_bool_decide; simpl; [|exact H]. by apply list_remove_elem_of.
Qed.

Lemma run_admin_ops_keeps_owner (owner : string) (ops : list admin_op) :
  forall admins, owner ∈ admins -> owner ∈ run_admin_ops owner admins ops.
Proof.
  induction ops as [|op ops IH]; intros admins H; simpl; [exact H|].
  apply IH. by apply apply_admin_op_keeps_owner.
Qed.

(** C5: the owner id is in the default admin list; [remove_admin] on
    the owner id returns false and leaves the list as it is; and no
    sequence of [add_admin]/[remove_admin] calls from the default list
    removes the owner. *)
Theorem owner_always_admin (owner : string) :
  owner ∈ default_admins owner
  /\ (forall admins : list string, remove_admin owner owner admins = (false, admins))
  /\ (forall ops : list admin_op, owner ∈ run_admin_ops owner (default_admins owner) ops).
Proof.
  split; [|split].
  - unfold default_admins. by apply list_elem_of_singleton.
  - intros admins. unfold remove_admin. by rewrite String.eqb_refl.
  - intros ops. apply run_admin_ops_keeps_owner. unfold default_admins.
    by apply list_elem_of_singleton.
Qed.

(* ------------------------------------------------------------------ *)
(** ** Batch building *)

(** C6: for an admin, a batch of [MAX_BATCH_MESSAGES] messages is left
    unchanged with the batch-full reply, whatever the message; below the
    cap a text/photo/video/document message is appended and the reply
    carries the old length plus one. *)
Theorem add_to_batch_cap (admins : list string) (user_id : string) (u : incoming)
    (file : text_file) (batch : list batch_message) :
  user_id ∈ admins ->
  (length batch = MAX_BATCH_MESSAGES -> add_to_batch admins user_id u file batch = (batch, RBatchFull))
  /\ (forall m, (length batch < MAX_BATCH_MESSAGES)%nat -> classify u = InMessage m ->
      add_to_batch admins user_id u file batch = (batch ++ [m], RAdded (S (length batch)))).
Proof.
  intros Hadm. unfold add_to_batch.
  rewrite bool_decide_eq_false_2 by (intros Hn; exact (Hn Hadm)).
  split.
  - intros Hlen. rewrite Hlen. reflexivity.
  - intros m Hlt Hc. destruct (Nat.leb_spec MAX_BATCH_MESSAGES (length batch)); [lia|].
    rewrite Hc, length_app. simpl. f_equal. f_equal. lia.
Qed.

Lemma add_to_batch_cap_witness :
  add_to_batch ["7"] "7" text_update no_file (repeat (MText "x" "Markdown") 100)
    = (repeat (MText "x" "Markdown") 100, RBatchFull)
  /\ add_to_batch ["7"] "7" text_update no_file [MText "x" "Markdown"]
    = ([MText "x" "Markdown"; MText "hi" "Markdown"], RAdded 2).
Proof.
  split.
  - apply (add_to_batch_cap ["7"] "7" text_update no_file (repeat (MText "x" "Markdown") 100));
      [by apply list_elem_of_singleton|reflexivity].
  - apply (add_to_batch_cap ["7"] "7" text_update no_file [MText "x" "Markdown"]);
      [by apply list_elem_of_singleton|vm_compute; lia|reflexivity].
Defined.

Lemma validate_message_content_fits (c : string) :
  validate_message_content c false = fits c.
Proof. unfold validate_message_content, fits. by destruct (String.eqb c ""). Qed.

Lemma add_messages_spec (msgs : list string) :
  forall batch n,
  add_messages batch msgs n =
    (batch ++ map mk_text (take (MAX_BATCH_MESSAGES - length batch) (List.filter fits msgs)),
     n + length (take (MAX_BATCH_MESSAGES - length batch) (List.filter fits msgs)))%nat.
Proof.
  induction msgs as [|msg rest IH]; intros batch n; cbn [add_messages List.filter].
  - rewrite take_nil. cbn [map length]. rewrite app_nil_r. f_equal. lia.
  - destruct (Nat.leb_spec MAX_BATCH_MESSAGES (length batch)) as [Hge|Hlt].
    + replace (MAX_BATCH_MESSAGES - length batch)%nat with 0%nat by lia.
      rewrite take_0. cbn [map length]. rewrite app_nil_r. f_equal. lia.
    + rewrite validate_message_content_fits.
      destruct (fits msg) eqn:Hf.
      * rewrite IH, length_app. cbn [length].
        replace (MAX_BATCH_MESSAGES - length batch)%nat
          with (S (MAX_BATCH_MESSAGES - (length batch + 1)))%nat by lia.
        rewrite firstn_cons. cbn [map length]. rewrite <- app_assoc. cbn [app].
        f_equal. lia.
      * apply IH.
Qed.

(** C7: for an admin uploading a text/plain file within the size limit
    that decodes to [text_content], with the batch below the cap: the
    blank-line separated, stripped, non-empty segments that fit the
    message length are appended as text messages, as many as the cap
    leaves room for, and the reply reports how many were added.  On
    "A\n\nB\n\nC" and an empty batch, exactly "A", "B", "C" are
    added. *)
Theorem text_file_ingestion :
  (forall (admins : list string) (user_id : string) (u : incoming) (file : text_file)
          (batch : list batch_message) (text_content : string),
    user_id ∈ admins -> classify u = InTextFile ->
    (file_size file <= TEXT_FILE_SIZE_LIMIT)%Z -> decoded file = Some text_content ->
    (length batch < MAX_BATCH_MESSAGES)%nat ->
    let added := take (MAX_BATCH_MESSAGES - length batch) (segments text_content) in
    add_to_batch admins user_id u file batch =
      (batch ++ map mk_text added, RAddedFromFile (length added) (length batch + length added)))
  /\ add_to_batch ["7"] "7" doc_file_update
       {| file_size := 5; decoded := Some ("A" +s+ nl2 +s+ "B" +s+ nl2 +s+ "C") |} []
     = ([MText "A" "Markdown"; MText "B" "Markdown"; MText "C" "Markdown"],
        RAddedFromFile 3 3).
Proof.
  split.
  - intros admins user_id u file batch text_content Hadm Hc Hsz Hdec Hlt added.
    unfold add_to_batch.
    rewrite bool_decide_eq_false_2 by (intros Hn; exact (Hn Hadm)).
    destruct (Nat.leb_spec MAX_BATCH_MESSAGES (length batch)); [lia|].
    rewrite Hc. destruct (Z.ltb_spec TEXT_FILE_SIZE_LIMIT (file_size file)); [lia|].
    rewrite Hdec. unfold ingest_text. rewrite add_messages_spec.
    rewrite length_app, length_map. reflexivity.
  - vm_compute. reflexivity.
Qed.

Lemma text_file_ingestion_witness :
  add_to_batch ["7"] "7" doc_file_update
    {| file_size := 5; decoded := Some ("A" +s+ nl2 +s+ "B" +s+ nl2 +s+ "C") |}
    (repeat (MText "x" "Markdown") 98)
  = (repeat (MText "x" "Markdown") 98 ++ [MText "A" "Markdown"; MText "B" "Markdown"],
     RAddedFromFile 2 100).
Proof.
  rewrite (proj1 text_file_ingestion ["7"] "7" doc_file_update
             {| file_size := 5; decoded := Some ("A" +s+ nl2 +s+ "B" +s+ nl2 +s+ "C") |}
             (repeat (MText "x" "Markdown") 98) ("A" +s+ nl2 +s+ "B" +s+ nl2 +s+ "C")).
  - vm_compute. reflexivity.
  - by apply list_elem_of_singleton.
  - reflexivity.
  - vm_compute. discriminate.
  - reflexivity.
  - vm_compute. lia.
Defined.

(* ------------------------------------------------------------------ *)
(** ** Immediate posting *)

(** C10: once [execute_post] runs on a non-empty batch and channel
    selection, the session's batch and selection are empty afterwards,
    for every outcome of the sends (in particular when all of them
    fail). *)
Theorem execute_post_clears_session (bot_ok : nat -> bool) (s : settings)
    (user_id now_iso : string) (sess : session) (stt : stats)
    (ast : gmap string admin_stat) :
  s_batch sess <> [] -> s_selected sess <> [] ->
  let '(sess', _, _, _) := execute_post bot_ok s user_id now_iso sess stt ast in
  sess' = {| s_batch := []; s_selected := [] |}.
Proof.
  intros Hb Hs. unfold execute_post.
  destruct (s_batch sess); [congruence|]. destruct (s_selected sess); [congruence|].
  reflexivity.
Qed.

Lemma execute_post_clears_session_witness :
  let sess := {| s_batch := [MText "hello" "Markdown"]; s_selected := ["-1001111111111"] |} in
  let stt := {| st_posts := 0; st_batches := 0; st_last_post := None; st_last_post_channels := [] |} in
  let '(sess', _, _, _) :=
    execute_post (fun _ => false) {| default_delay := 0; max_retries := 3; footer := "" |}
      "7" "now" sess stt ∅ in
  sess' = {| s_batch := []; s_selected := [] |}.
Proof.
  intros sess stt.
  apply (execute_post_clears_session (fun _ => false)
           {| default_delay := 0; max_retries := 3; footer := "" |} "7" "now" sess stt ∅);
    simpl; discriminate.
Defined.

(* ------------------------------------------------------------------ *)
(** ** Channel-id validation *)

Lemma rep_spec (p : Z -> bool) (hi : nat) :
  forall lo (s : ustr) (k : ustr -> bool),
  rep p lo hi s k = true <->
  exists n, (lo <= n <= hi)%nat /\ (n <= length s)%nat /\
            forallb p (take n s) = true /\ k (drop n s) = true.
Proof.
  induction hi as [|hi IH]; intros lo s k; cbn [rep].
  - rewrite andb_true_iff, Nat.eqb_eq. split.
    + intros [-> Hk]. exists 0%nat. rewrite take_0, drop_0. simpl. repeat split; try lia; exact Hk.
    + intros [n [Hn [_ [_ Hk]]]]. assert (n = 0%nat) as -> by lia.
      rewrite drop_0 in Hk. split; [lia|exact Hk].
  - rewrite orb_true_iff. split.
    + intros [H|H].
      * destruct s as [|x t]; [discriminate|].
        apply andb_true_iff in H as [Hx H]. apply IH in H as [n [Hn [Hlen [Hp Hk]]]].
        exists (S n). cbn [take drop length forallb]. rewrite Hx, Hp.
        repeat split; try lia; exact Hk.
      * apply andb_true_iff in H as [H0 Hk]. apply Nat.eqb_eq in H0.
        exists 0%nat. rewrite take_0, drop_0. simpl. repeat split; try lia; exact Hk.
    + intros [[|n] [Hn [Hlen [Hp Hk]]]].
      * right. rewrite drop_0 in Hk. apply andb_true_iff. split; [apply Nat.eqb_eq; lia|exact Hk].
      * left. destruct s as [|x t]; [simpl in Hlen; lia|].
        cbn [take drop length forallb] in *. apply andb_true_iff in Hp as [Hx Hp].
        rewrite Hx. simpl. apply IH. exists n. repeat split; try lia; assumption.
Qed.

Lemma end_ok_spec (t : ustr) : end_ok t = true <-> t = [] \/ t = [10%Z].
Proof.
  destruct t as [|x [|y t]]; cbn.
  - split; auto.
  - rewrite andb_true_r. split.
    + intros H. apply Z.eqb_eq in H as ->. by right.
    + intros [H|H]; [discriminate|]. injection H as ->. reflexivity.
  - split; [discriminate|]. intros [H|H]; discriminate.
Qed.

Lemma rep_end (p : Z -> bool) (lo hi : nat) (s : ustr) :
  rep p lo hi s (fun t => matches REnd t (fun _ => true)) = true <->
  exists body tail, s = body ++ tail /\ (tail = [] \/ tail = [10%Z]) /\
    forallb p body = true /\ (lo <= length body <= hi)%nat.
Proof.
  rewrite rep_spec. split.
  - intros [n [Hn [Hlen [Hp Hk]]]].
    exists (take n s), (drop n s). rewrite take_drop, length_take_le by exact Hlen.
    repeat split; try lia; try assumption. apply end_ok_spec. exact Hk.
  - intros [body [tail [-> [Ht [Hp Hb]]]]].
    exists (length body). rewrite take_app_length, drop_app_length, length_app.
    repeat split; try lia; try assumption. apply end_ok_spec. exact Ht.
Qed.

Lemma username_match (l : ustr) :
  matches username_pattern l (fun _ => true) = true <->
  exists t, (l = t \/ l = t ++ [10%Z]) /\ username_shape t = true.
Proof.
  split.
  - intros H. destruct l as [|c0 [|c rest]]; cbn [matches username_pattern] in H.
    + discriminate.
    + rewrite andb_false_r in H. discriminate.
    + apply andb_true_iff in H as [H0 H]. apply andb_true_iff in H as [Hc H].
      apply rep_end in H as [body [tail [-> [Ht [Hp Hb]]]]].
      exists (c0 :: c :: body). split.
      * destruct Ht as [-> | ->]; [left; by rewrite app_nil_r|right; reflexivity].
      * cbn [username_shape]. rewrite H0, Hc, Hp. cbn [andb].
        apply andb_true_iff; split; apply Nat.leb_le; lia.
  - intros [t [Hl Ht]]. destruct t as [|c0 [|c body]]; try discriminate.
    cbn [username_shape] in Ht. repeat rewrite andb_true_iff in Ht.
    destruct Ht as [[[[H0 Hc] Hp] Hlo] Hhi].
    apply Nat.leb_le in Hlo, Hhi.
    destruct Hl as [-> | ->]; cbn [matches username_pattern app];
      rewrite H0, Hc; cbn [andb]; apply rep_end.
    + exists body, []. rewrite app_nil_r. repeat split; auto; lia.
    + exists body, [10%Z]. repeat split; auto; lia.
Qed.

Lemma numeric_match (is_decimal : Z -> bool) (l : ustr) :
  matches (id_pattern is_decimal) l (fun _ => true) = true <->
  exists t, (l = t \/ l = t ++ [10%Z]) /\ numeric_shape is_decimal t = true.
Proof.
  split.
  - intros H. unfold id_pattern in H.
    destruct l as [|a [|b [|c [|d ds]]]]; cbn [matches] in H;
      repeat rewrite andb_false_r in H; try discriminate.
    apply andb_true_iff in H as [Ha H]. apply andb_true_iff in H as [Hb H].
    apply andb_true_iff in H as [Hc H]. apply andb_true_iff in H as [Hd H].
    apply rep_end in H as [body [tail [-> [Ht [Hp Hbl]]]]].
    exists (a :: b :: c :: d :: body). split.
    + destruct Ht as [-> | ->]; [left; by rewrite app_nil_r|right; reflexivity].
    + cbn [numeric_shape]. rewrite Ha, Hb, Hc, Hd, Hp. cbn [andb]. apply Nat.eqb_eq. lia.
  - intros [t [Hl Ht]]. destruct t as [|a [|b [|c [|d body]]]]; try discriminate.
    cbn [numeric_shape] in Ht. repeat rewrite andb_true_iff in Ht.
    destruct Ht as [[[[[Ha Hb] Hc] Hd] Hp] Hlen]. apply Nat.eqb_eq in Hlen.
    unfold id_pattern.
    destruct Hl as [-> | ->]; cbn [matches app];
      rewrite Ha, Hb, Hc, Hd; cbn [andb]; apply rep_end.
    + exists body, []. rewrite app_nil_r. repeat split; auto; lia.
    + exists body, [10%Z]. repeat split; auto; lia.
Qed.

(** C8 (amended): for every Unicode database ([is_decimal] is what [\d]
    matches), [validate_channel_id] accepts exactly the strings that are
    a username-shaped id (ASCII letters, digits and underscores) or
    ["-100"] followed by ten characters [\d] matches, possibly followed
    by one trailing newline (Python's [$] also matches before a final
    "\n"); with Python 3.11's database "abc", "-99123" and "@a" are
    rejected, and "-100" followed by ten fullwidth digits is accepted. *)
Theorem validate_channel_id_spec :
  (forall (is_decimal : Z -> bool) (s : ustr),
     validate_channel_id is_decimal s = true <->
     exists t, (s = t \/ s = t ++ [10%Z]) /\
               (username_shape t || numeric_shape is_decimal t) = true)
  /\ validate_channel_id unicode_nd (ustr_of "abc") = false
  /\ validate_channel_id unicode_nd (ustr_of "-99123") = false
  /\ validate_channel_id unicode_nd (ustr_of "@a") = false
  /\ validate_channel_id unicode_nd fullwidth_channel_id = true.
Proof.
  split; [|vm_compute; repeat split].
  intros is_decimal s. unfold validate_channel_id. destruct s as [|c s'].
  - split; [discriminate|]. intros [t [[Hl|Hl] Ht]].
    + subst t. discriminate.
    + destruct t; discriminate.
  - unfold re_match. rewrite orb_true_iff, username_match, numeric_match. split.
    + intros [[t [Hl Ht]]|[t [Hl Ht]]]; exists t; split; try exact Hl;
        rewrite Ht; [reflexivity|apply orb_true_r].
    + intros [t [Hl Ht]]. apply orb_true_iff in Ht as [Ht|Ht]; [left|right]; eauto.
Qed.

Lemma validate_channel_id_spec_witness :
  validate_channel_id unicode_nd (ustr_of "@abcde") = true
  /\ validate_channel_id unicode_nd (ustr_of "-1001234567890") = true.
Proof.
  split; apply (proj1 validate_channel_id_spec).
  - exists (ustr_of "@abcde"). split; [by left|reflexivity].
  - exists (ustr_of "-1001234567890"). split; [by left|reflexivity].
Defined.

(** C8, as stated, fails: "-1001234567890\n" is accepted although it is
    not of the stated shapes. *)
Lemma validate_channel_id_trailing_newline :
  ~ (forall s : ustr, validate_channel_id unicode_nd s = true <-> channel_shape unicode_nd s = true).
Proof.
  intros H. specialize (H (ustr_of "-1001234567890" ++ [10%Z])).
  assert (Hv : validate_channel_id unicode_nd (ustr_of "-1001234567890" ++ [10%Z]) = true)
    by (vm_compute; reflexivity).
  apply H in Hv. vm_compute in Hv. discriminate.
Qed.

(* ------------------------------------------------------------------ *)
(** ** Dispatch and the inter-message delay *)

Lemma fold_left_preserve {A B : Type} (P : A -> Prop) (f : A -> B -> A) (l : list B) :
  (forall a b, P a -> P (f a b)) -> forall a, P a -> P (fold_left f l a).
Proof.
  intros Hf. induction l as [|b l IH]; intros a Ha; simpl; [exact Ha|].
  apply IH, Hf, Ha.
Qed.

Lemma emit_no_sleep (e : event) (st : dstate) :
  is_sleep e = false -> no_sleep st -> no_sleep (emit e st).
Proof. intros He Hs. unfold no_sleep, emit; simpl. apply Forall_app. split; [exact Hs|by constructor]. Qed.

Lemma try_send_no_sleep (bot_ok : nat -> bool) (ft ch : string) (m : batch_message) (st : dstate) :
  no_sleep st -> no_sleep (snd (try_send bot_ok ft ch m st)).
Proof.
  intros Hs. unfold try_send. destruct (payload_of ft ch m); simpl; [|exact Hs].
  unfold no_sleep; simpl. apply Forall_app. split; [exact Hs|by constructor].
Qed.

Lemma bump_no_sleep (b : bool) (ch : string) (st : dstate) :
  no_sleep st -> no_sleep (bump b ch st).
Proof. unfold bump, no_sleep. destruct (default _ _) as [x y]. simpl. auto. Qed.

Lemma post_attempts_no_sleep (bot_ok : nat -> bool) (s : settings) (ch : string)
    (m : batch_message) (fuel : nat) :
  forall attempt st, no_sleep st ->
  no_sleep (snd (post_attempts bot_ok s ch m fuel attempt false st)).
Proof.
  induction fuel as [|fuel IH]; intros attempt st Hs; cbn [post_attempts]; [exact Hs|].
  pose proof (try_send_no_sleep bot_ok (footer s) ch m st Hs) as H1.
  destruct (try_send bot_ok (footer s) ch m st) as [ok st1]. simpl in H1.
  destruct ok; [apply bump_no_sleep, H1|].
  rewrite andb_false_l. apply IH.
  assert (H2 : no_sleep (emit (ELogError ch attempt) st1)) by (apply emit_no_sleep; auto).
  destruct (Z.of_nat attempt =? max_retries s - 1)%Z; [apply bump_no_sleep|]; exact H2.
Qed.

Lemma post_channels_no_sleep (bot_ok : nat -> bool) (s : settings) (selected : list string)
    (batch : list batch_message) (st : dstate) :
  no_sleep st -> no_sleep (post_channels bot_ok s selected batch st).
Proof.
  apply fold_left_preserve. intros st0 ch H0. unfold post_messages.
  apply fold_left_preserve; [|exact H0].
  intros st1 m H1. apply post_attempts_no_sleep, H1.
Qed.

(** C1 (code_bug): the retry/footer/counting loop of [execute_post]
    never pauses: its [if success and delay > 0] test sits inside the
    retry loop after the [try], where [success] is still false, so no
    [asyncio.sleep] is ever issued, whatever the delay.  With a delay of
    1 s, one channel, two text messages and every send succeeding, the
    sends follow each other directly, while [execute_scheduled_job]
    pauses after each message. *)
Theorem execute_post_never_pauses :
  (forall (bot_ok : nat -> bool) (s : settings) (selected : list string)
          (batch : list batch_message),
     no_sleep (post_channels bot_ok s selected batch dstate0))
  /\ trace (post_channels (fun _ => true) delay_settings ["-1001111111111"] two_texts dstate0)
     = [ESend (PMessage "-1001111111111" "first" "Markdown") true;
        ESend (PMessage "-1001111111111" "second" "Markdown") true]
  /\ trace (job_channels (fun _ => true) delay_settings ["-1001111111111"] two_texts dstate0)
     = [ESend (PMessage "-1001111111111" "first" "Markdown") true; ESleep 1;
        ESend (PMessage "-1001111111111" "second" "Markdown") true; ESleep 1].
Proof.
  split; [|split; vm_compute; reflexivity].
  intros. apply post_channels_no_sleep. constructor.
Qed.

(* ------------------------------------------------------------------ *)
(** ** The scheduler tick *)

(** C2 (code_bug): a due, well-formed job stored after a job whose
    schedule time does not parse is neither executed nor removed by the
    tick: removing the malformed job inside the [for ... in
    scheduled_jobs.items()] loop changes the dict's size, the iterator
    raises [RuntimeError], and the outer handler ends the tick. *)
Theorem tick_skips_due_job_after_malformed
    (fromisoformat : string -> iso_result) (exec_raises : string -> bool)
    (now c t : Z) (bad due : job) :
  job_time fromisoformat bad = None -> job_time fromisoformat due = Some t -> (t <= now)%Z ->
  run_scheduled_jobs fromisoformat exec_raises now c (tstate_of [("bad", bad); ("due", due)])
  = {| scheduled_posts := [("due", due)]; log := [LWarnRemoved "bad"; LRunnerError] |}.
Proof.
  intros Hbad Hdue Ht. unfold run_scheduled_jobs, tstate_of. cbn [scheduled_posts length].
  cbn [scan_due]. rewrite Hbad. reflexivity.
Qed.

Lemma tick_skips_due_job_after_malformed_witness :
  run_scheduled_jobs iso_stub (fun _ => false) 60 60
    (tstate_of [("bad", job_at "not a date"); ("due", job_at "2024-05-10T09:00:00")])
  = {| scheduled_posts := [("due", job_at "2024-05-10T09:00:00")];
       log := [LWarnRemoved "bad"; LRunnerError] |}.
Proof.
  apply (tick_skips_due_job_after_malformed iso_stub (fun _ => false) 60 60 0);
    [reflexivity|reflexivity|lia].
Defined.

(** C4 (code_bug): of two stored jobs whose schedule times do not
    parse, the tick removes (and logs) only the first; the second stays
    stored, because the loop raises [RuntimeError] right after the first
    removal and [cleanup_expired_jobs] is never reached.  Neither is
    executed.  The following tick removes the second. *)
Theorem tick_leaves_second_malformed_job
    (fromisoformat : string -> iso_result) (exec_raises : string -> bool)
    (now c : Z) (bad1 bad2 : job) :
  job_time fromisoformat bad1 = None -> job_time fromisoformat bad2 = None ->
  let st1 := run_scheduled_jobs fromisoformat exec_raises now c (tstate_of [("a", bad1); ("b", bad2)]) in
  st1 = {| scheduled_posts := [("b", bad2)]; log := [LWarnRemoved "a"; LRunnerError] |}
  /\ run_scheduled_jobs fromisoformat exec_raises now c st1
     = {| scheduled_posts := []; log := [LWarnRemoved "a"; LRunnerError; LWarnRemoved "b"; LRunnerError] |}.
Proof.
  intros H1 H2 st1.
  assert (E : st1 = {| scheduled_posts := [("b", bad2)]; log := [LWarnRemoved "a"; LRunnerError] |}).
  { subst st1. unfold run_scheduled_jobs, tstate_of. cbn [scheduled_posts length scan_due].
    rewrite H1. reflexivity. }
  split; [exact E|]. rewrite E. unfold run_scheduled_jobs. cbn [scheduled_posts length scan_due].
  rewrite H2. cbn. reflexivity.
Qed.

Lemma tick_leaves_second_malformed_job_witness :
  let st1 := run_scheduled_jobs iso_stub (fun _ => false) 60 60
               (tstate_of [("a", job_at "garbage"); ("b", job_at "")]) in
  st1 = {| scheduled_posts := [("b", job_at "")]; log := [LWarnRemoved "a"; LRunnerError] |}
  /\ run_scheduled_jobs iso_stub (fun _ => false) 60 60 st1
     = {| scheduled_posts := []; log := [LWarnRemoved "a"; LRunnerError; LWarnRemoved "b"; LRunnerError] |}.
Proof.
  apply (tick_leaves_second_malformed_job iso_stub (fun _ => false) 60 60);
    reflexivity.
Defined.

(* ------------------------------------------------------------------ *)
(** ** Schedule-time parsing *)

Lemma strptime_2359 :
  strptime "23:59" "%Y-%m-%d %H:%M:%S" = None /\ strptime "23:59" "%Y-%m-%d %H:%M" = None
  /\ strptime "23:59" "%d/%m/%Y %H:%M" = None /\ strptime "23:59" "%d.%m.%Y %H:%M" = None
  /\ strptime "23:59" "%H:%M" = Some (mk_dt 1900 1 1 23 59 0 0).
Proof. vm_compute. repeat split. Qed.

Lemma validate_2359 (now : datetime) :
  validate_schedule_time now "23:59" =
  let dt := combine_date now 23 59 0 in
  if dt_le dt now then match add_one_day dt with Some d => Ret (Some d) | None => Raise end
  else Ret (Some dt).
Proof.
  destruct strptime_2359 as [E1 [E2 [E3 [E4 E5]]]].
  unfold validate_schedule_time, schedule_formats. cbn -[strptime].
  rewrite E1, E2, E3, E4, E5. reflexivity.
Qed.

(** C9: the bare "HH:MM" form is resolved against today's date and
    moved to the next day when that instant is not strictly later than
    now: "23:59" at 23:58 (any seconds) gives today at 23:59, at
    23:59:30 it gives the next calendar day at 23:59; a string that no
    supported format parses gives [None], without an exception. *)
Theorem validate_schedule_time_bare_time :
  (forall now : datetime, hour now = 23%Z -> minute now = 58%Z ->
     validate_schedule_time now "23:59" = Ret (Some (combine_date now 23 59 0)))
  /\ (forall (now d : datetime), hour now = 23%Z -> minute now = 59%Z -> second now = 30%Z ->
       add_one_day (combine_date now 23 59 0) = Some d ->
       validate_schedule_time now "23:59" = Ret (Some d)
       /\ hour d = 23%Z /\ minute d = 59%Z /\ second d = 0%Z)
  /\ (forall (now : datetime) (time_str : string),
       Forall (fun fmt => strptime time_str fmt = None) schedule_formats ->
       validate_schedule_time now time_str = Ret None).
Proof.
  split; [|split].
  - intros now Hh Hm. rewrite validate_2359. cbn zeta.
    unfold dt_le, dt_fields, combine_date. cbn [year month day hour minute second microsecond lex_le].
    rewrite Hh, Hm, !Z.ltb_irrefl, !Z.eqb_refl. reflexivity.
  - intros now d Hh Hm Hs Hd. rewrite validate_2359. cbn zeta.
    unfold dt_le, dt_fields. cbn [combine_date year month day hour minute second microsecond lex_le].
    rewrite Hh, Hm, Hs, !Z.ltb_irrefl, !Z.eqb_refl. cbn. rewrite Hd.
    unfold add_one_day in Hd. cbn [combine_date hour minute second] in Hd.
    destruct (_ : Z * Z * Z) as [[y mo] dd].
    destruct (9999 <? y)%Z; [discriminate|]. injection Hd as <-. simpl. auto.
  - intros now time_str H. unfold validate_schedule_time, schedule_formats in *.
    repeat (apply Forall_cons in H as [? H]).
    destruct (String.eqb time_str ""); [reflexivity|].
    cbn -[strptime]. repeat match goal with E : strptime _ _ = None |- _ => rewrite E end.
    reflexivity.
Qed.

Lemma validate_schedule_time_bare_time_witness :
  validate_schedule_time (mk_dt 2024 5 10 23 58 30 0) "23:59" = Ret (Some (mk_dt 2024 5 10 23 59 0 0))
  /\ validate_schedule_time (mk_dt 2024 12 31 23 59 30 0) "23:59" = Ret (Some (mk_dt 2025 1 1 23 59 0 0))
  /\ validate_schedule_time (mk_dt 2024 5 10 23 58 30 0) "tomorrow" = Ret None.
Proof.
  destruct validate_schedule_time_bare_time as [H1 [H2 H3]].
  split; [|split].
  - apply (H1 (mk_dt 2024 5 10 23 58 30 0)); reflexivity.
  - apply (H2 (mk_dt 2024 12 31 23 59 30 0) (mk_dt 2025 1 1 23 59 0 0)); reflexivity.
  - apply (H3 (mk_dt 2024 5 10 23 58 30 0) "tomorrow").
    repeat constructor; vm_compute; reflexivity.
Defined.

(* ------------------------------------------------------------------ *)
(** ** Scheduling a batch *)

(** C3 (code_bug): [schedule_batch_confirm] never creates a job: for
    every input the persisted configuration, and so its
    ["scheduled_posts"], is returned unchanged (no id is generated and
    [add_scheduled_job] has no caller).  On a future time "23:59", a
    non-empty batch and configured channels it ends the conversation
    with only the time kept in the session. *)
Theorem schedule_batch_confirm_creates_no_job :
  (forall (now : datetime) (text : string) (ud : sched_user_data) (cfg : persisted),
     let '(_, _, _, cfg') := schedule_batch_confirm now text ud cfg in cfg' = cfg)
  /\ schedule_batch_confirm (mk_dt 2024 5 10 12 0 0 0) "23:59" ud_with_batch fixed_channels_cfg
     = (END, RSelectChannels,
        {| u_batch := [MText "hello" "Markdown"];
           u_schedule_time := Some (mk_dt 2024 5 10 23 59 0 0); u_selected := [] |},
        fixed_channels_cfg).
Proof.
  split; [|vm_compute; reflexivity].
  intros now text ud cfg. unfold schedule_batch_confirm.
  destruct (validate_schedule_time now (strip text)) as [[dt|]|]; try reflexivity.
  destruct (dt_le dt now); [reflexivity|]. destruct (p_channels cfg); reflexivity.
Qed.


(* ------------------------------------------------------------------ *)
(** ** Properties of the further handlers *)


Lemma digit_char_code (d : Z) : (0 <= d < 10)%Z -> Z.of_nat (code (digit_char d) - 48) = d.
Proof.
  intros Hd. unfold code, digit_char.
  rewrite nat_ascii_embedding by lia. lia.
Qed.



Lemma pow10_log2 (m : Z) : (0 <= m)%Z -> (m < 10 ^ Z.of_nat (S (Z.to_nat (Z.log2 m))))%Z.
Proof.
  intros Hm. destruct (Z.eq_dec m 0%Z) as [->|Hne]; [simpl; lia|].
  destruct (Z.log2_spec m) as [_ Hup]; [lia|].
  eapply Z.lt_le_trans; [exact Hup|].
  rewrite Nat2Z.inj_succ, Z2Nat.id by (apply Z.log2_nonneg).
  apply Z.pow_le_mono_l. lia.
Qed.

Lemma digit_groups_digits (l : list ascii) :
  l <> [] -> Forall (fun c => is_digit c = true) l -> digit_groups l = Some l.
Proof.
  induction l as [|c t IH]; intros Hne Hd; [congruence|].
  inversion Hd as [|? ? Hc Ht]; subst. cbn [digit_groups]. rewrite Hc.
  destruct t as [|u t']; [reflexivity|].
  inversion Ht as [|? ? Hu _]; subst.
  assert (Ascii.eqb u "_" = false) as ->.
  { destruct (Ascii.eqb_spec u "_"); [subst; discriminate|reflexivity]. }
  rewrite IH by (discriminate || exact Ht). reflexivity.
Qed.

Lemma int_lstrip_nonws (l : list ascii) :
  match l with c :: _ => int_ws c = false | [] => True end -> int_lstrip l = l.
Proof. destruct l as [|c t]; [reflexivity|]. intros Hc. unfold int_lstrip. cbn. by rewrite Hc. Qed.

Lemma is_digit_not_int_ws (c : ascii) : is_digit c = true -> int_ws c = false.
Proof.
  unfold is_digit, int_ws, in_range. intros H. apply andb_true_iff in H as [H1 H2].
  apply Nat.leb_le in H1, H2.
  repeat (apply orb_false_iff; split); try (apply Nat.eqb_neq; lia).
  apply andb_false_iff. right. apply Nat.leb_gt. lia.
Qed.


Lemma rev_head_digit (l : list ascii) :
  l <> [] -> Forall (fun c => is_digit c = true) l ->
  match rev l with c :: _ => int_ws c = false | [] => True end.
Proof.
  intros Hne Hd. destruct (rev l) as [|c t] eqn:Er; [exact I|].
  apply is_digit_not_int_ws.
  assert (Hin : In c (rev l)) by (rewrite Er; left; reflexivity).
  apply in_rev in Hin. rewrite List.Forall_forall in Hd. by apply Hd.
Qed.

Lemma las_cons (c : ascii) (s : string) :
  list_ascii_of_string (String c EmptyString +s+ s) = c :: list_ascii_of_string s.
Proof. reflexivity. Qed.


Lemma dec_digits_S_nonempty (f : nat) (n : Z) : dec_digits (S f) n <> [].
Proof.
  cbn [dec_digits]. destruct (n <? 10)%Z; [discriminate|].
  destruct (dec_digits f (n / 10)); discriminate.
Qed.

Lemma digit_head_nonzero (f : nat) : forall n, (1 <= n)%Z -> (n < 10 ^ Z.of_nat f)%Z ->
  match dec_digits f n with c :: _ => c <> "0"%char | [] => True end.
Proof.
  induction f as [|f IH]; intros n Hn Hf; [exact I|]. cbn [dec_digits].
  destruct (Z.ltb_spec n 10).
  - intros E. apply (f_equal (fun c => Z.of_nat (code c - 48))) in E.
    rewrite digit_char_code in E by lia. change (Z.of_nat (code "0" - 48)) with 0%Z in E. lia.
  - destruct f as [|f']; [simpl in Hf; lia|].
    assert (Hf' : (n / 10 < 10 ^ Z.of_nat (S f'))%Z).
    { apply Z.div_lt_upper_bound; [lia|]. rewrite Nat2Z.inj_succ, Z.pow_succ_r in Hf; lia. }
    specialize (IH (n / 10)%Z ltac:(apply Z.div_le_lower_bound; lia) Hf').
    pose proof (dec_digits_S_nonempty f' (n / 10)).
    destruct (dec_digits (S f') (n / 10)); [congruence|exact IH].
Qed.

Lemma py_str_no_leading_zero (n : Z) (t : list ascii) :
  t <> [] -> list_ascii_of_string (py_str n) <> "0"%char :: t.
Proof.
  intros Ht. unfold py_str.
  destruct (Z.ltb_spec n 0).
  - rewrite las_cons. intros E. injection E as E _. discriminate E.
  - rewrite list_ascii_of_string_of_list_ascii.
    destruct (Z.eq_dec n 0%Z) as [->|Hne].
    + cbn. intros E. injection E as <-. congruence.
    + pose proof (digit_head_nonzero (S (Z.to_nat (Z.log2 (Z.abs n)))) (Z.abs n) ltac:(lia)
                    (pow10_log2 (Z.abs n) ltac:(lia))) as Hd.
      destruct (dec_digits _ _); [discriminate|]. intros E. injection E as -> _. congruence.
Qed.

Lemma int_lstrip_ws_app (w l : list ascii) :
  Forall (fun c => int_ws c = true) w -> int_lstrip (w ++ l) = int_lstrip l.
Proof.
  induction 1 as [|c w Hc Hw IH]; [reflexivity|].
  cbn [app]. unfold int_lstrip at 1. cbn. rewrite Hc. exact IH.
Qed.

Lemma strip_l_pad (w1 l w2 : list ascii) :
  Forall (fun c => int_ws c = true) w1 -> Forall (fun c => int_ws c = true) w2 ->
  match l with c :: _ => int_ws c = false | [] => False end ->
  match rev l with c :: _ => int_ws c = false | [] => False end ->
  int_strip (w1 ++ l ++ w2) = l.
Proof.
  intros H1 H2 Hl Hr. unfold int_strip. rewrite int_lstrip_ws_app by exact H1.
  rewrite (int_lstrip_nonws (l ++ w2)) by (destruct l; [contradiction|exact Hl]).
  rewrite rev_app_distr, int_lstrip_ws_app by (by apply Forall_rev).
  rewrite (int_lstrip_nonws (rev l)) by (destruct (rev l); [contradiction|exact Hr]).
  apply rev_involutive.
Qed.

Lemma py_int_signed (w1 w2 ds : list ascii) (sgn : list ascii) (z : Z) :
  all_int_ws w1 -> all_int_ws w2 -> ds <> [] -> all_digits ds ->
  (sgn = [] /\ z = 1%Z \/ sgn = ["+"%char] /\ z = 1%Z \/ sgn = ["-"%char] /\ z = (-1)%Z) ->
  py_int (string_of_list_ascii (w1 ++ (sgn ++ ds) ++ w2)) =
    if (length ds <=? PY_INT_MAX_STR_DIGITS)%nat then Some (z * digits_value ds)%Z else None.
Proof.
  intros H1 H2 Hne Hd Hs. unfold py_int. rewrite list_ascii_of_string_of_list_ascii.
  assert (Hh : match ds with c :: _ => is_digit c = true | [] => False end)
    by (destruct ds; [congruence|by inversion Hd]).
  rewrite strip_l_pad; [|exact H1|exact H2| |].
  - destruct Hs as [[-> ->]|[[-> ->]|[-> ->]]]; cbn [app].
    + destruct ds as [|c t]; [contradiction|].
      assert (Ascii.eqb c "+" = false) as ->.
      { destruct (Ascii.eqb_spec c "+"); [subst; discriminate|reflexivity]. }
      assert (Ascii.eqb c "-" = false) as ->.
      { destruct (Ascii.eqb_spec c "-"); [subst; discriminate|reflexivity]. }
      cbv iota beta. rewrite digit_groups_digits by (discriminate || exact Hd). reflexivity.
    + cbv iota beta. simpl (Ascii.eqb "+" "+"). cbv iota beta.
      by rewrite digit_groups_digits.
    + cbv iota beta. simpl (Ascii.eqb "-" "+"). simpl (Ascii.eqb "-" "-"). cbv iota beta.
      by rewrite digit_groups_digits.
  - destruct Hs as [[-> ->]|[[-> ->]|[-> ->]]]; cbn [app];
      [destruct ds; [contradiction|by apply is_digit_not_int_ws]|reflexivity|reflexivity].
  - rewrite rev_app_distr. pose proof (rev_head_digit ds Hne Hd) as Hr.
    destruct (rev ds) eqn:Er; [|exact Hr].
    apply (f_equal length) in Er. rewrite length_rev in Er. destruct ds; [congruence|discriminate].
Qed.

Lemma string_of_list_ascii_nonempty (l : list ascii) :
  l <> [] -> String.eqb (string_of_list_ascii l) "" = false.
Proof. destruct l; [congruence|reflexivity]. Qed.

Lemma digits_value_nonneg (l : list ascii) : (0 <= digits_value l)%Z.
Proof.
  unfold digits_value.
  assert (G : forall a, (0 <= a)%Z ->
            (0 <= fold_left (fun acc c => 10 * acc + Z.of_nat (code c - 48))%Z l a)%Z).
  { induction l as [|c l IH]; intros a Ha; [exact Ha|]. cbn [fold_left]. apply IH. lia. }
  apply G. lia.
Qed.

(** X2: [validate_user_id] on a run of decimal digits [ds], padded with
    characters [int()] strips ([int_ws]: \t \n \v \f \r, space, \x85,
    \xa0) and optionally signed: unsigned or with ["+"] it accepts
    exactly when [int()] takes the digits (at most 4300 of them) and the
    value lies in [1, 10^10); with ["-"] it always rejects. *)
Theorem validate_user_id_decimal (w1 w2 ds : list ascii) :
  all_int_ws w1 -> all_int_ws w2 -> ds <> [] -> all_digits ds ->
  let ok := (length ds <=? PY_INT_MAX_STR_DIGITS)%nat && (0 <? digits_value ds)%Z
            && (digits_value ds <? 10 ^ 10)%Z in
  validate_user_id (string_of_list_ascii (w1 ++ ds ++ w2)) = ok
  /\ validate_user_id (string_of_list_ascii (w1 ++ ("+"%char :: ds) ++ w2)) = ok
  /\ validate_user_id (string_of_list_ascii (w1 ++ ("-"%char :: ds) ++ w2)) = false.
Proof.
  intros H1 H2 Hne Hd ok. unfold validate_user_id.
  assert (Hv : (0 <= digits_value ds)%Z) by apply digits_value_nonneg.
  refine (conj _ (conj _ _)).
  - rewrite string_of_list_ascii_nonempty by (destruct w1, ds; simpl; congruence).
    pose proof (py_int_signed w1 w2 ds [] 1 H1 H2 Hne Hd ltac:(auto)) as P.
    cbn [app] in P. rewrite P.
    destruct (length ds <=? _)%nat; [|reflexivity]. by rewrite Z.mul_1_l.
  - rewrite string_of_list_ascii_nonempty by (destruct w1; simpl; congruence).
    pose proof (py_int_signed w1 w2 ds ["+"%char] 1 H1 H2 Hne Hd ltac:(auto)) as P.
    change (["+"%char] ++ ds) with ("+"%char :: ds) in P. rewrite P.
    destruct (length ds <=? _)%nat; [|reflexivity]. by rewrite Z.mul_1_l.
  - rewrite string_of_list_ascii_nonempty by (destruct w1; simpl; congruence).
    pose proof (py_int_signed w1 w2 ds ["-"%char] (-1) H1 H2 Hne Hd ltac:(auto)) as P.
    change (["-"%char] ++ ds) with ("-"%char :: ds) in P. rewrite P.
    destruct (length ds <=? _)%nat; [|reflexivity].
    destruct (Z.ltb_spec 0 (-1 * digits_value ds)); [lia|reflexivity].
Qed.

Lemma list_remove_subset (x a : string) (l : list string) :
  a ∈ list_remove x l -> a ∈ l.
Proof.
  induction l as [|y l IH]; simpl; intros H; [exact H|].
  destruct (String.eqb x y); [by right|].
  apply elem_of_cons in H as [->|H]; [by left|right; by apply IH].
Qed.

Lemma handle_admin_input_ok (owner text st : string) (admins : list string) :
  admins_ok owner admins -> admins_ok owner (snd (handle_admin_input owner text st admins)).
Proof.
  intros [Ho Ha]. unfold handle_admin_input. cbv zeta.
  set (u := strip text). clearbody u.
  destruct (validate_user_id u) eqn:V; cbn [negb]; [|split; assumption].
  destruct (py_contains "add" st).
  - unfold add_admin. case_bool_decide; simpl; [|split; assumption]. split.
    + apply elem_of_app. by left.
    + intros a Hin. apply elem_of_app in Hin as [Hin|Hin]; [by apply Ha|].
      apply list_elem_of_singleton in Hin as ->. by right.
  - destruct (py_contains "remove" st); simpl; [|split; assumption].
    unfold remove_admin. destruct (String.eqb_spec u owner) as [->|Hne]; simpl;
      [split; assumption|].
    case_bool_decide; simpl; [|split; assumption]. split.
    + apply list_remove_elem_of; [exact Ho|congruence].
    + intros a Hin. apply Ha. by apply list_remove_subset in Hin.
Qed.

(** X3: any sequence of inputs to [handle_admin_input], starting from
    the default admin list, keeps the owner in the list and admits no
    entry other than the owner and ids [validate_user_id] accepts. *)
Theorem run_admin_inputs_ok (owner : string) (inputs : list (string * string)) :
  let r := run_admin_inputs owner inputs (default_admins owner) in
  owner ∈ r /\ forall a, a ∈ r -> a = owner \/ validate_user_id a = true.
Proof.
  cbv zeta. change (admins_ok owner (run_admin_inputs owner inputs (default_admins owner))).
  assert (H0 : admins_ok owner (default_admins owner)).
  { split; [by left|]. intros a Ha. left. by apply list_elem_of_singleton in Ha. }
  revert H0. generalize (default_admins owner) as admins.
  induction inputs as [|[text st] rest IH]; intros admins H; simpl; [exact H|].
  apply IH. by apply handle_admin_input_ok.
Qed.

(** X4: for every value [setting_type] can hold when the admin
    conversation runs (it is set only by [setting_input_prompt] to
    "set_delay", "set_retries" or "set_footer", and defaults to ""),
    [handle_admin_input] leaves the admin list unchanged: it either asks
    again after an invalid id or ends the conversation doing nothing. *)
Theorem handle_admin_input_never_changes_admins (owner text st : string) (admins : list string) :
  st ∈ stored_setting_types ->
  handle_admin_input owner text st admins = (ADMIN_MANAGEMENT, AInvalidId, admins)
  \/ handle_admin_input owner text st admins = (CONV_END, ANoAction, admins).
Proof.
  intros Hst. unfold handle_admin_input. cbv zeta.
  set (u := strip text). clearbody u.
  destruct (validate_user_id u); cbn [negb]; [|by left]. right.
  unfold stored_setting_types in Hst.
  repeat (apply elem_of_cons in Hst as [->|Hst]; [reflexivity|]).
  by apply elem_of_nil in Hst.
Qed.

Lemma handle_admin_input_never_changes_admins_witness :
  "set_delay" ∈ stored_setting_types /\
  (handle_admin_input "1" " 42 " "set_delay" ["1"] = (ADMIN_MANAGEMENT, AInvalidId, ["1"])
   \/ handle_admin_input "1" " 42 " "set_delay" ["1"] = (CONV_END, ANoAction, ["1"])).
Proof.
  split; [unfold stored_setting_types; by right; left|].
  apply handle_admin_input_never_changes_admins. unfold stored_setting_types. by right; left.
Defined.

(** X5: for every value [setting_type] can hold,
    [handle_channel_input] ends the conversation and leaves the channel
    table unchanged; its add and remove branches are unreachable. *)
Theorem handle_channel_input_never_changes_channels get_chat (text st : string) (chs : channels) :
  st ∈ stored_setting_types ->
  handle_channel_input get_chat text st chs = (CONV_END, CNoAction, chs).
Proof.
  intros Hst. unfold handle_channel_input. cbv zeta.
  set (u := strip text). clearbody u.
  unfold stored_setting_types in Hst.
  repeat (apply elem_of_cons in Hst as [->|Hst]; [reflexivity|]).
  by apply elem_of_nil in Hst.
Qed.

Lemma handle_channel_input_never_changes_channels_witness :
  "set_footer" ∈ stored_setting_types /\
  handle_channel_input (fun _ => Some ("channel", "10")) "-1001234567890|News" "set_footer" []
  = (CONV_END, CNoAction, []).
Proof.
  split; [unfold stored_setting_types; by right; right; right; left|].
  apply handle_channel_input_never_changes_channels.
  unfold stored_setting_types. by right; right; right; left.
Defined.

Lemma ch_mem_app (k : string) (chs chs' : channels) :
  ch_mem k (chs ++ chs') = ch_mem k chs || ch_mem k chs'.
Proof. unfold ch_mem. by rewrite existsb_app. Qed.

Lemma ch_delete_app_absent (k : string) (chs chs' : channels) :
  ch_mem k chs = false -> ch_delete k (chs ++ chs') = chs ++ ch_delete k chs'.
Proof.
  induction chs as [|p t IH]; simpl; intros H; [reflexivity|].
  apply orb_false_iff in H as [H1 H2]. rewrite H1. f_equal. by apply IH.
Qed.

(** X6: [ConfigManager.add_channel] on an absent id appends it and
    reports success, [remove_channel] then restores the previous table,
    and removing an absent id fails and changes nothing; adding an id
    that is present anywhere in the table, with any info, fails and
    changes nothing. *)
Theorem add_remove_channel_roundtrip (channel_id : string) (info : channel_info) (chs : channels) :
  (ch_mem channel_id chs = false ->
     add_channel channel_id info chs = (true, chs ++ [(channel_id, info)])
     /\ remove_channel channel_id (chs ++ [(channel_id, info)]) = (true, chs)
     /\ remove_channel channel_id chs = (false, chs))
  /\ (ch_mem channel_id chs = true -> add_channel channel_id info chs = (false, chs)).
Proof.
  unfold add_channel, remove_channel. split; intros H; rewrite H; cbn [negb]; [|reflexivity].
  assert (Hm : ch_mem channel_id (chs ++ [(channel_id, info)]) = true).
  { rewrite ch_mem_app. simpl. rewrite String.eqb_refl. by destruct (ch_mem _ chs). }
  rewrite Hm. refine (conj eq_refl (conj _ eq_refl)).
  rewrite ch_delete_app_absent by exact H. simpl. rewrite String.eqb_refl. by rewrite app_nil_r.
Qed.

Lemma add_remove_channel_roundtrip_witness :
  let a := {| ci_name := "A"; ci_type := "channel"; ci_subscribers := "3" |} in
  let i := {| ci_name := "News"; ci_type := "channel"; ci_subscribers := "5" |} in
  let j := {| ci_name := "Other"; ci_type := "channel"; ci_subscribers := "9" |} in
  remove_channel "@news" [("-1001", a); ("@news", i)] = (true, [("-1001", a)])
  /\ add_channel "@news" j [("@news", i); ("-1001", a)] = (false, [("@news", i); ("-1001", a)]).
Proof.
  cbv zeta. split.
  - exact (proj1 (proj2 (proj1 (add_remove_channel_roundtrip "@news"
      {| ci_name := "News"; ci_type := "channel"; ci_subscribers := "5" |}
      [("-1001", {| ci_name := "A"; ci_type := "channel"; ci_subscribers := "3" |})]) eq_refl))).
  - exact (proj2 (add_remove_channel_roundtrip "@news"
      {| ci_name := "Other"; ci_type := "channel"; ci_subscribers := "9" |}
      [("@news", {| ci_name := "News"; ci_type := "channel"; ci_subscribers := "5" |});
       ("-1001", {| ci_name := "A"; ci_type := "channel"; ci_subscribers := "3" |})]) eq_refl).
Defined.

(** X7: [handle_settings_input] keeps each setting unchanged or sets it
    within its bounds: delay in [0, 10], retries in [1, 10], footer at most
    200 characters; when it asks again ([POST_SETTINGS]) nothing changed. *)
Theorem handle_settings_input_bounds py_float (text st : string) (s : settings) :
  let r := handle_settings_input py_float text st s in
  (fst r = POST_SETTINGS -> snd r = s)
  /\ (default_delay (snd r) = default_delay s \/ (0 <= default_delay (snd r) <= 10)%Q)
  /\ (max_retries (snd r) = max_retries s \/ (1 <= max_retries (snd r) <= 10)%Z)
  /\ (footer (snd r) = footer s \/ (String.length (footer (snd r)) <= MAX_FOOTER_LENGTH)%nat).
Proof.
  cbv zeta. unfold handle_settings_input. cbv zeta.
  set (u := strip text). clearbody u.
  assert (Same : forall s', s' = s ->
    (POST_SETTINGS = POST_SETTINGS -> s' = s)
    /\ (default_delay s' = default_delay s \/ (0 <= default_delay s' <= 10)%Q)
    /\ (max_retries s' = max_retries s \/ (1 <= max_retries s' <= 10)%Z)
    /\ (footer s' = footer s \/ (String.length (footer s') <= MAX_FOOTER_LENGTH)%nat)).
  { intros s' ->. repeat split; auto. }
  destruct (String.eqb st "set_delay").
  { destruct (py_float u) as [x|]; [|by apply Same].
    destruct (delay_in_range x) eqn:R; [|by apply Same].
    destruct x as [q| |neg]; [|by apply Same|by apply Same].
    cbn -[Qle]. unfold delay_in_range in R. apply andb_true_iff in R as [R1 R2].
    apply Qle_bool_iff in R1, R2.
    split; [intros H; discriminate H|]. split; [right; split; assumption|].
    split; left; reflexivity. }
  destruct (String.eqb st "set_retries").
  { destruct (py_int u) as [n|]; [|by apply Same].
    destruct ((1 <=? n)%Z && (n <=? 10)%Z) eqn:R; [|by apply Same].
    apply andb_true_iff in R as [R1 R2]. apply Z.leb_le in R1, R2. cbn.
    split; [intros H; discriminate H|]. split; [left; reflexivity|].
    split; [right; lia|left; reflexivity]. }
  destruct (String.eqb st "set_footer").
  { destruct (String.eqb (py_lower u) "clear").
    { cbn. split; [intros H; discriminate H|]. split; [left; reflexivity|].
      split; [left; reflexivity|]. right. unfold MAX_FOOTER_LENGTH. lia. }
    destruct (String.length u <=? MAX_FOOTER_LENGTH)%nat eqn:L; [|by apply Same].
    cbn. split; [intros H; discriminate H|]. split; [left; reflexivity|].
    split; [left; reflexivity|]. right. by apply Nat.leb_le. }
  cbn. split; [intros _; reflexivity|]. repeat split; left; reflexivity.
Qed.

Lemma las_app (s1 s2 : string) :
  list_ascii_of_string (s1 +s+ s2) = list_ascii_of_string s1 ++ list_ascii_of_string s2.
Proof. induction s1 as [|c s1 IH]; simpl; [reflexivity|]. by rewrite IH. Qed.

Lemma prefix_app (p s : string) : String.prefix p (p +s+ s) = true.
Proof.
  induction p as [|c p IH]; simpl; [by destruct s|].
  destruct (ascii_dec c c); [exact IH|congruence].
Qed.

Lemma prefix_notin (p s : string) (L : list string) :
  forallb (fun y => negb (String.prefix p y)) L = true -> String.prefix p s = true -> s ∉ L.
Proof.
  intros HL Hp Hin. apply forallb_forall with (x := s) in HL.
  - rewrite Hp in HL. discriminate.
  - by apply list_elem_of_In.
Qed.

Lemma py_split_go_tail (sep : ascii) (cur l : list ascii) :
  py_split_go sep (Some 0%nat) cur l = [rev cur ++ l].
Proof.
  revert cur. induction l as [|c l IH]; intros cur; simpl; [by rewrite app_nil_r|].
  destruct (Ascii.eqb c sep); [reflexivity|]. rewrite IH. simpl. by rewrite <- app_assoc.
Qed.

Lemma py_split_go_nosep (sep : ascii) (max : option nat) (cur l : list ascii) :
  Forall (fun c => c <> sep) l -> py_split_go sep max cur l = [rev cur ++ l].
Proof.
  revert cur. induction l as [|c l IH]; intros cur Hl; simpl; [by rewrite app_nil_r|].
  apply Forall_cons in Hl as [Hc Hl].
  destruct (Ascii.eqb_spec c sep); [congruence|]. rewrite IH by exact Hl.
  simpl. by rewrite <- app_assoc.
Qed.



Lemma split_toggle (id : string) :
  py_split "_" (Some 2%nat) ("toggle_channel_" +s+ id) = ["toggle"; "channel"; id].
Proof.
  unfold py_split. rewrite las_app. simpl. rewrite py_split_go_tail. simpl.
  by rewrite string_of_list_ascii_of_string.
Qed.

Lemma split_detail (id : string) :
  py_split "_" (Some 2%nat) ("schedule_detail_" +s+ id) = ["schedule"; "detail"; id].
Proof.
  unfold py_split. rewrite las_app. simpl. rewrite py_split_go_tail. simpl.
  by rewrite string_of_list_ascii_of_string.
Qed.

Lemma split_delete (id : string) :
  py_split "_" (Some 2%nat) ("delete_schedule_" +s+ id) = ["delete"; "schedule"; id].
Proof.
  unfold py_split. rewrite las_app. simpl. rewrite py_split_go_tail. simpl.
  by rewrite string_of_list_ascii_of_string.
Qed.


Section Route.

Variables (admins : list string) (uid : string).
Hypothesis Hadmin : uid ∈ admins.

Lemma route_admin : bool_decide (uid ∉ admins) = false.
Proof. apply bool_decide_eq_false_2. intros H. exact (H Hadmin). Qed.



Lemma route_detail (id : string) :
  button_handler admins uid ("schedule_detail_" +s+ id) = Ret (ADetail id).
Proof.
  unfold button_handler. rewrite route_admin.
  rewrite bool_decide_eq_false_2
    by (apply (prefix_notin "schedule_detail_"); [reflexivity|apply prefix_app]).
  change (String.prefix "toggle_channel_" ("schedule_detail_" +s+ id)) with false. cbv iota.
  rewrite bool_decide_eq_false_2
    by (apply (prefix_notin "schedule_detail_"); [reflexivity|apply prefix_app]).
  change (String.prefix "channel_page_" ("schedule_detail_" +s+ id)) with false. cbv iota.
  rewrite bool_decide_eq_false_2
    by (apply (prefix_notin "schedule_detail_"); [reflexivity|apply prefix_app]).
  rewrite prefix_app, split_detail. reflexivity.
Qed.

Lemma route_delete (id : string) :
  button_handler admins uid ("delete_schedule_" +s+ id) = Ret (ADelete id).
Proof.
  unfold button_handler. rewrite route_admin.
  rewrite bool_decide_eq_false_2
    by (apply (prefix_notin "delete_schedule_"); [reflexivity|apply prefix_app]).
  change (String.prefix "toggle_channel_" ("delete_schedule_" +s+ id)) with false. cbv iota.
  rewrite bool_decide_eq_false_2
    by (apply (prefix_notin "delete_schedule_"); [reflexivity|apply prefix_app]).
  change (String.prefix "channel_page_" ("delete_schedule_" +s+ id)) with false. cbv iota.
  rewrite bool_decide_eq_false_2
    by (apply (prefix_notin "delete_schedule_"); [reflexivity|apply prefix_app]).
  change (String.prefix "schedule_detail_" ("delete_schedule_" +s+ id)) with false. cbv iota.
  rewrite prefix_app, split_delete. reflexivity.
Qed.

Lemma route_literal (name : string) :
  name ∈ callbacks_1 ++ callbacks_2 ++ callbacks_3 ++ callbacks_4 ->
  button_handler admins uid name = Ret (ACallback name).
Proof.
  intros H. unfold button_handler. rewrite route_admin.
  unfold callbacks_1, callbacks_2, callbacks_3, callbacks_4 in H. cbn [app] in H.
  repeat (apply elem_of_cons in H as [->|H]; [reflexivity|]). by apply elem_of_nil in H.
Qed.

End Route.

Lemma py_slice_take_drop {A} (l : list A) (a k : Z) : (0 <= a)%Z -> (0 <= k)%Z ->
  py_slice l a (a + k) = take (Z.to_nat k) (drop (Z.to_nat a) l).
Proof.
  intros Ha Hk. unfold py_slice, py_slice_bound.
  destruct (Z.ltb_spec a 0); [lia|]. destruct (Z.ltb_spec (a + k) 0); [lia|].
  destruct (Z.le_gt_cases (Z.of_nat (length l)) a) as [Hge|Hlt].
  - rewrite (drop_ge l (Z.to_nat (Z.min a (Z.of_nat (length l))))) by lia.
    rewrite (drop_ge l (Z.to_nat a)) by lia. rewrite !take_nil. reflexivity.
  - rewrite (Z.min_l a) by lia.
    destruct (Z.le_gt_cases (a + k) (Z.of_nat (length l))).
    + rewrite (Z.min_l (a + k)) by lia. f_equal. lia.
    + rewrite Z.min_r by lia.
      rewrite (take_ge (drop (Z.to_nat a) l)) by (rewrite length_drop; lia).
      rewrite take_ge by (rewrite length_drop; lia). reflexivity.
Qed.

Lemma concat_pages {A} (l : list A) (k : nat) (m : nat) :
  concat (map (fun p => take k (drop (p * k) l)) (seq 0 m)) = take (m * k) l.
Proof.
  induction m as [|m IH]; [reflexivity|].
  rewrite seq_S, map_app, concat_app, IH. simpl. rewrite app_nil_r.
  rewrite take_take_drop. f_equal. lia.
Qed.

Lemma toggle_targets_app (k1 k2 : list (list button)) :
  toggle_targets (k1 ++ k2) = toggle_targets k1 ++ toggle_targets k2.
Proof. unfold toggle_targets. by rewrite concat_app, omap_app. Qed.

Lemma toggle_targets_cons (r : list button) (k : list (list button)) :
  toggle_targets (r :: k) = toggle_targets [r] ++ toggle_targets k.
Proof. exact (toggle_targets_app [r] k). Qed.

Lemma toggle_targets_rows (f : string * channel_info -> list button) (cs : channels) :
  (forall p, exists t, f p = [{| b_text := t; b_data := "toggle_channel_" +s+ fst p |}]) ->
  toggle_targets (map f cs) = map fst cs.
Proof.
  intros Hf. induction cs as [|p cs IH]; [reflexivity|].
  cbn [map]. rewrite toggle_targets_cons, IH. destruct (Hf p) as [t ->].
  unfold toggle_targets at 1. simpl. rewrite prefix_app, split_toggle. reflexivity.
Qed.

Lemma toggle_targets_page (sel : gset string) (chs : channels) (p : Z) :
  toggle_targets (fst (build_channel_selection_keyboard sel chs p 10))
  = map fst (py_slice chs (p * 10) (p * 10 + 10)).
Proof.
  unfold build_channel_selection_keyboard. cbv zeta. cbn [fst].
  rewrite !toggle_targets_app, toggle_targets_rows by (intros [id info]; eexists; reflexivity).
  assert (Hnav : forall nav : list (list button),
    Forall (fun r => Forall (fun b => String.prefix "toggle_channel_" (b_data b) = false) r) nav ->
    toggle_targets nav = []).
  { intros nav Hn. unfold toggle_targets. induction nav as [|r nav IH]; [reflexivity|].
    apply Forall_cons in Hn as [Hr Hn]. simpl. rewrite omap_app, IH by exact Hn.
    rewrite app_nil_r. induction r as [|b r IHr]; [reflexivity|].
    apply Forall_cons in Hr as [Hb Hr]. simpl. rewrite Hb. exact (IHr Hr). }
  rewrite (Hnav [_; _; _]) by repeat constructor.
  rewrite Hnav; [by rewrite !app_nil_r|].
  destruct (1 <? _)%Z; [|constructor].
  match goal with |- Forall _ (match ?n with [] => _ | _ => _ end) => destruct n eqn:E end;
    [constructor|].
  rewrite <- E. constructor; [|constructor].
  apply Forall_app; split.
  - destruct (0 <? p)%Z; repeat constructor.
  - destruct (p <? _)%Z; repeat constructor.
Qed.

(** X8: the toggle buttons of the pages 0 .. total_pages - 1 of
    [build_channel_selection_keyboard] name every channel exactly once, in
    the table's order. *)
Theorem channel_pages_cover (sel : gset string) (chs : channels) :
  let total_pages := snd (build_channel_selection_keyboard sel chs 0 10) in
  concat (map (fun p => toggle_targets (fst (build_channel_selection_keyboard sel chs (Z.of_nat p) 10)))
              (seq 0 (Z.to_nat total_pages)))
  = map fst chs.
Proof.
  cbv zeta. cbn [build_channel_selection_keyboard snd].
  set (m := Z.to_nat ((Z.of_nat (length chs) + 10 - 1) / 10)).
  transitivity (map fst (concat (map (fun p => take 10 (drop (p * 10) chs)) (seq 0 m)))).
  - rewrite List.concat_map, map_map. f_equal. apply map_ext. intros p.
    rewrite toggle_targets_page, py_slice_take_drop by lia. do 3 f_equal. lia.
  - rewrite concat_pages, take_ge; [reflexivity|].
    subst m. pose proof (Z.div_mod (Z.of_nat (length chs) + 10 - 1) 10 ltac:(lia)).
    pose proof (Z.mod_pos_bound (Z.of_nat (length chs) + 10 - 1) 10 ltac:(lia)). lia.
Qed.



(** X10: [toggle_channel_selection] on the data of a channel's button
    flips that channel's membership in the selection, leaves every other
    channel alone, and a second press restores the selection. *)
Theorem toggle_channel_selection_flips (id : string) (s : gset string) :
  exists s', toggle_channel_selection ("toggle_channel_" +s+ id) s = Ret s'
  /\ (id ∈ s' <-> id ∉ s)
  /\ (forall y, y <> id -> (y ∈ s' <-> y ∈ s))
  /\ toggle_channel_selection ("toggle_channel_" +s+ id) s' = Ret s.
Proof.
  unfold toggle_channel_selection. rewrite split_toggle.
  change (py_index ["toggle"; "channel"; id] 2) with (@Ret string id). cbv iota.
  destruct (decide (id ∈ s)) as [Hin|Hin];
    [rewrite (bool_decide_eq_true_2 (id ∈ s)) by exact Hin
    |rewrite (bool_decide_eq_false_2 (id ∈ s)) by exact Hin];
    eexists; (split; [reflexivity|]).
  - rewrite bool_decide_eq_false_2 by set_solver.
    split; [set_solver|]. split; [set_solver|]. f_equal.
    apply set_eq. intros y. destruct (String.eq_dec y id) as [->|]; set_solver.
  - rewrite bool_decide_eq_true_2 by set_solver.
    split; [set_solver|]. split; [set_solver|]. f_equal.
    apply set_eq. intros y. set_solver.
Qed.

Section ScheduleRoutes.

Variable strftime_iso : string -> option string.

(** X11: every button of [create_schedule_list_keyboard] is routed by
    [button_handler] (for an admin) to the details of one of the first ten
    jobs, by its own id, or to the main menu. *)
Theorem schedule_keyboard_routes (admins : list string) (uid : string)
    (jobs : list (string * job)) (b : button) :
  uid ∈ admins ->
  In b (concat (create_schedule_list_keyboard strftime_iso jobs)) ->
  (exists job_id j, In (job_id, j) (take 10 jobs)
                    /\ button_handler admins uid (b_data b) = Ret (ADetail job_id))
  \/ button_handler admins uid (b_data b) = Ret (ACallback "main_menu").
Proof.
  intros Ha Hb. unfold create_schedule_list_keyboard in Hb.
  apply in_concat in Hb as (r & Hr & Hbr). apply in_app_or in Hr as [Hr|Hr].
  - left. apply in_map_iff in Hr as ([job_id j] & <- & Hin).
    destruct Hbr as [<-|[]]. exists job_id, j. split; [exact Hin|]. by apply route_detail.
  - right. destruct Hr as [<-|[]]. destruct Hbr as [<-|[]].
    apply route_literal; [exact Ha|]. by left.
Qed.

End ScheduleRoutes.

Lemma try_send_counts (bot_ok : nat -> bool) (ft ch : string) (m : batch_message) (st : dstate) :
  let st' := snd (try_send bot_ok ft ch m st) in
  successful_posts st' = successful_posts st /\ failed_posts st' = failed_posts st
  /\ channel_results st' = channel_results st.
Proof. unfold try_send. destruct (payload_of ft ch m); simpl; auto. Qed.

Lemma bump_tot (b : bool) (ch : string) (st : dstate) : tot (bump b ch st) = S (tot st).
Proof. unfold bump, tot. destruct (default _ _). destruct b; simpl; lia. Qed.

Lemma bump_cres (b : bool) (ch k : string) (st : dstate) :
  cres (bump b ch st) k = if String.eqb k ch then S (cres st k) else cres st k.
Proof.
  unfold bump, cres. destruct (default (0, 0)%nat (channel_results st !! ch)) as [a c] eqn:E. simpl.
  destruct (String.eqb_spec k ch) as [->|Hne].
  - rewrite lookup_insert_eq, E. simpl. destruct b; lia.
  - by rewrite lookup_insert_ne by congruence.
Qed.

Lemma bump_some (b : bool) (ch : string) (st : dstate) :
  is_Some (channel_results (bump b ch st) !! ch).
Proof. unfold bump. destruct (default _ _). simpl. rewrite lookup_insert_eq. by eexists. Qed.

Section Counting.

Variable bot_ok : nat -> bool.
Variable s : settings.
Hypothesis Hretries : (1 <= max_retries s)%Z.

Lemma post_attempts_once (ch : string) (m : batch_message) (fuel : nat) :
  forall attempt success st, (attempt + fuel)%nat = Z.to_nat (max_retries s) -> (1 <= fuel)%nat ->
  let st' := snd (post_attempts bot_ok s ch m fuel attempt success st) in
  tot st' = S (tot st)
  /\ (forall k, cres st' k = if String.eqb k ch then S (cres st k) else cres st k)
  /\ (forall k, is_Some (channel_results st !! k) -> is_Some (channel_results st' !! k))
  /\ is_Some (channel_results st' !! ch).
Proof.
  induction fuel as [|fuel IH]; intros attempt success st Hn H1; [lia|].
  cbn [post_attempts].
  pose proof (try_send_counts bot_ok (footer s) ch m st) as (E1 & E2 & E3).
  destruct (try_send bot_ok (footer s) ch m st) as [ok st1]. cbn [snd] in E1, E2, E3 |- *.
  assert (T1 : tot st1 = tot st) by (unfold tot; lia).
  assert (C1 : forall k, cres st1 k = cres st k) by (intros k; unfold cres; by rewrite E3).
  destruct ok; cbn [snd].
  - split; [by rewrite bump_tot, T1|]. split; [intros k; by rewrite bump_cres, C1|].
    split; [|apply bump_some].
    intros k Hk. unfold bump. destruct (default _ _). simpl.
    destruct (String.eq_dec k ch) as [->|Hne]; [rewrite lookup_insert_eq; by eexists|].
    rewrite lookup_insert_ne by congruence. by rewrite E3.
  - set (st2 := emit (ELogError ch attempt) st1).
    assert (T2 : tot st2 = tot st) by (unfold tot, st2, emit; simpl; exact T1).
    assert (C2 : forall k, cres st2 k = cres st k) by (intros k; apply C1).
    assert (R2 : channel_results st2 = channel_results st) by exact E3.
    clearbody st2.
    destruct (Z.eqb_spec (Z.of_nat attempt) (max_retries s - 1)) as [Hlast|Hnot].
    + assert (fuel = 0%nat) as -> by lia.
      cbn [post_attempts snd].
      set (st3 := bump false ch st2).
      assert (T3 : tot st3 = S (tot st)) by (unfold st3; by rewrite bump_tot, T2).
      assert (C3 : forall k, cres st3 k = if String.eqb k ch then S (cres st k) else cres st k).
      { intros k. unfold st3. by rewrite bump_cres, C2. }
      assert (R3 : forall k, is_Some (channel_results st !! k) -> is_Some (channel_results st3 !! k)).
      { intros k Hk. unfold st3, bump. destruct (default _ _). simpl.
        destruct (String.eq_dec k ch) as [->|Hne]; [rewrite lookup_insert_eq; by eexists|].
        rewrite lookup_insert_ne by congruence. by rewrite R2. }
      assert (S3 : is_Some (channel_results st3 !! ch)) by apply bump_some.
      clearbody st3.
      destruct (success && negb (Qle_bool (default_delay s) 0)); [|auto].
      unfold emit, tot, cres in *; simpl in *. auto.
    + assert (Hf : (1 <= fuel)%nat) by lia.
      set (st4 := if success && negb (Qle_bool (default_delay s) 0)
                  then emit (ESleep (default_delay s)) st2 else st2).
      assert (T4 : tot st4 = tot st) by (unfold st4; destruct (_ && _); [exact T2|exact T2]).
      assert (C4 : forall k, cres st4 k = cres st k) by (unfold st4; destruct (_ && _); exact C2).
      assert (R4 : channel_results st4 = channel_results st) by (unfold st4; destruct (_ && _); exact R2).
      clearbody st4.
      destruct (IH (S attempt) success st4 ltac:(lia) Hf) as (IH1 & IH2 & IH3 & IH4).
      split; [by rewrite IH1, T4|]. split; [intros k; by rewrite IH2, C4|].
      split; [|exact IH4]. intros k Hk. apply IH3. by rewrite R4.
Qed.

Lemma post_messages_count (ch : string) (batch : list batch_message) :
  forall st,
  let st' := post_messages bot_ok s ch batch st in
  tot st' = tot st + length batch
  /\ (forall k, cres st' k = if String.eqb k ch then cres st k + length batch else cres st k)
  /\ (forall k, is_Some (channel_results st !! k) -> is_Some (channel_results st' !! k)).
Proof.
  unfold post_messages. induction batch as [|m batch IH]; intros st; cbn [fold_left length].
  - split; [lia|]. split; [|auto]. intros k. destruct (String.eqb k ch); lia.
  - destruct (post_attempts_once ch m (Z.to_nat (max_retries s)) 0 false st ltac:(lia) ltac:(lia))
      as (A1 & A2 & A3 & _).
    destruct (IH (snd (post_attempts bot_ok s ch m (Z.to_nat (max_retries s)) 0 false st)))
      as (B1 & B2 & B3).
    split; [rewrite B1, A1; lia|]. split; [|auto].
    intros k. rewrite B2, A2. destruct (String.eqb k ch); lia.
Qed.

Lemma post_channels_cons (ch : string) (rest : list string) (batch : list batch_message) (st : dstate) :
  post_channels bot_ok s (ch :: rest) batch st
  = post_channels bot_ok s rest batch (post_messages bot_ok s ch batch (reset ch st)).
Proof. reflexivity. Qed.

Lemma post_channels_other (ch : string) (batch : list batch_message) (rest : list string) :
  ~ In ch rest -> forall st,
  let st' := post_channels bot_ok s rest batch st in
  tot st' = tot st + length rest * length batch
  /\ cres st' ch = cres st ch
  /\ (is_Some (channel_results st !! ch) -> is_Some (channel_results st' !! ch)).
Proof.
  induction rest as [|c rest IH]; intros Hn st; cbn zeta.
  - simpl. split; [lia|]. auto.
  - rewrite post_channels_cons.
    assert (Hc : c <> ch) by (intros ->; apply Hn; by left).
    assert (Hr : ~ In ch rest) by (intros H; apply Hn; by right).
    destruct (post_messages_count c batch (reset c st)) as (A1 & A2 & A3).
    destruct (IH Hr (post_messages bot_ok s c batch (reset c st))) as (B1 & B2 & B3).
    split; [rewrite B1, A1; unfold tot, reset; simpl; lia|].
    split.
    + rewrite B2, A2. destruct (String.eqb_spec ch c) as [->|_]; [congruence|].
      unfold cres, reset. simpl. by rewrite lookup_insert_ne by congruence.
    + intros H. apply B3, A3. unfold reset. simpl. by rewrite lookup_insert_ne by congruence.
Qed.

Lemma post_channels_count (batch : list batch_message) (sel : list string) :
  forall st,
  let st' := post_channels bot_ok s sel batch st in
  tot st' = tot st + length sel * length batch
  /\ (forall ch, In ch sel -> exists a b, channel_results st' !! ch = Some (a, b)
                                         /\ (a + b = length batch)%nat).
Proof.
  induction sel as [|c rest IH]; intros st; cbn zeta.
  - simpl. split; [lia|]. intros ch [].
  - rewrite post_channels_cons.
    destruct (post_messages_count c batch (reset c st)) as (A1 & A2 & A3).
    destruct (IH (post_messages bot_ok s c batch (reset c st))) as (B1 & B2).
    split; [rewrite B1, A1; unfold tot, reset; simpl; lia|].
    intros ch Hin. destruct (in_dec string_dec ch rest) as [Hr|Hr]; [by apply B2|].
    destruct Hin as [<-|Hin]; [|contradiction].
    destruct (post_channels_other c batch rest Hr (post_messages bot_ok s c batch (reset c st)))
      as (_ & C2 & C3).
    assert (Hs : is_Some (channel_results (post_channels bot_ok s rest batch
                   (post_messages bot_ok s c batch (reset c st))) !! c)).
    { apply C3, A3. unfold reset. simpl. rewrite lookup_insert_eq. by eexists. }
    destruct Hs as [[a b] Hab]. exists a, b. split; [exact Hab|].
    assert (E : cres (post_channels bot_ok s rest batch (post_messages bot_ok s c batch (reset c st))) c
                = a + b) by (unfold cres; by rewrite Hab).
    rewrite <- E, C2, A2, String.eqb_refl. unfold cres, reset. simpl.
    rewrite lookup_insert_eq. simpl. lia.
Qed.

Lemma job_attempts_once (ch : string) (m : batch_message) (fuel : nat) :
  forall attempt st, (attempt + fuel)%nat = Z.to_nat (max_retries s) -> (1 <= fuel)%nat ->
  tot (snd (job_attempts bot_ok s ch m fuel attempt st)) = S (tot st).
Proof.
  induction fuel as [|fuel IH]; intros attempt st Hn H1; [lia|].
  cbn [job_attempts].
  pose proof (try_send_counts bot_ok (footer s) ch m st) as (E1 & E2 & _).
  destruct (try_send bot_ok (footer s) ch m st) as [ok st1]. cbn [snd] in E1, E2 |- *.
  destruct ok; cbn [snd].
  - unfold tot. simpl. lia.
  - destruct (Z.eqb_spec (Z.of_nat attempt) (max_retries s - 1)) as [Hlast|Hnot].
    + assert (fuel = 0%nat) as -> by lia. cbn. unfold tot. simpl. lia.
    + rewrite IH by lia. unfold tot, emit. simpl. lia.
Qed.

Lemma job_channels_count (batch : list batch_message) (chans : list string) :
  forall st, tot (job_channels bot_ok s chans batch st) = tot st + length chans * length batch.
Proof.
  unfold job_channels. induction chans as [|c rest IH]; intros st; cbn [fold_left length]; [lia|].
  rewrite IH. enough (E : tot (job_messages bot_ok s c batch st) = tot st + length batch) by lia.
  unfold job_messages. clear IH. revert st.
  induction batch as [|m batch IHb]; intros st; cbn [fold_left length]; [lia|].
  rewrite IHb.
  pose proof (job_attempts_once c m (Z.to_nat (max_retries s)) 0 st ltac:(lia) ltac:(lia)) as J.
  destruct (job_attempts bot_ok s c m (Z.to_nat (max_retries s)) 0 st) as [ok st'].
  cbn [snd] in J. destruct (ok && _); unfold tot, emit in *; simpl in *; lia.
Qed.

End Counting.

(** X12: [execute_post] with at least one attempt per message, a non-empty
    batch and a non-empty selection: successful plus failed sends equal
    channels times messages, the posts counter grows by the successful
    sends, every selected channel has a result pair summing to the batch
    size, and the admin's posts and batches counters each grow by one. *)
Theorem execute_post_counts (bot_ok : nat -> bool) (s : settings) (user_id now_iso : string)
    (sess : session) (stt : stats) (ast : gmap string admin_stat) :
  (1 <= max_retries s)%Z -> s_batch sess <> [] -> s_selected sess <> [] ->
  match execute_post bot_ok s user_id now_iso sess stt ast with
  | (sess', stt', ast', st) =>
      (successful_posts st + failed_posts st = length (s_selected sess) * length (s_batch sess))%nat
      /\ st_posts stt' = (st_posts stt + successful_posts st)%nat
      /\ (forall ch, In ch (s_selected sess) -> exists a b,
            channel_results st !! ch = Some (a, b) /\ (a + b = length (s_batch sess))%nat)
      /\ (let a0 := default {| a_posts := 0; a_batches := 0; a_last_action := None |} (ast !! user_id) in
          ast' !! user_id = Some {| a_posts := S (a_posts a0); a_batches := S (a_batches a0);
                                    a_last_action := Some now_iso |})
  end.
Proof.
  intros Hr Hb Hs. unfold execute_post.
  destruct (s_batch sess) as [|m ms] eqn:Eb; [congruence|].
  destruct (s_selected sess) as [|c cs] eqn:Es; [congruence|].
  rewrite <- Eb, <- Es.
  destruct (post_channels_count bot_ok s Hr (s_batch sess) (s_selected sess) dstate0) as (P1 & P2).
  split; [unfold tot in P1; simpl in P1; lia|]. split; [reflexivity|]. split; [exact P2|].
  cbv zeta. unfold update_admin_stats. rewrite lookup_insert_eq. cbn [default].
  rewrite lookup_insert_eq. reflexivity.
Qed.

(** X13: [execute_scheduled_job] with at least one attempt per message
    counts one success or failure for every channel and message. *)
Theorem scheduled_job_counts (bot_ok : nat -> bool) (s : settings)
    (chans : list string) (batch : list batch_message) :
  (1 <= max_retries s)%Z ->
  let st := job_channels bot_ok s chans batch dstate0 in
  (successful_posts st + failed_posts st = length chans * length batch)%nat.
Proof.
  intros Hr. pose proof (job_channels_count bot_ok s Hr batch chans dstate0) as J.
  unfold tot in J. simpl in J. cbv zeta. lia.
Qed.

Lemma unescape_md_cons2 (b c : ascii) (t : list ascii) :
  unescape_md (b :: c :: t) = if Ascii.eqb b BACKSLASH && bool_decide (c ∈ markdown_chars)
                              then c :: unescape_md t else b :: unescape_md (c :: t).
Proof. reflexivity. Qed.

Lemma replace_step (P : list ascii) (c : ascii) (l : list ascii) :
  c ∉ P -> c <> BACKSLASH ->
  replace_char c [BACKSLASH; c]
    (flat_map (fun x => if bool_decide (x ∈ P) then [BACKSLASH; x] else [x]) l)
  = flat_map (fun x => if bool_decide (x ∈ P ++ [c]) then [BACKSLASH; x] else [x]) l.
Proof.
  intros HcP HcB. unfold replace_char. induction l as [|x l IH]; [reflexivity|].
  cbn [flat_map]. rewrite flat_map_app, IH. f_equal.
  destruct (decide (x ∈ P)) as [Hx|Hx].
  - rewrite bool_decide_eq_true_2 by exact Hx.
    rewrite bool_decide_eq_true_2 by (apply elem_of_app; by left).
    cbn [flat_map]. destruct (Ascii.eqb_spec BACKSLASH c) as [E|_]; [congruence|].
    destruct (Ascii.eqb_spec x c) as [->|_]; [contradiction|reflexivity].
  - rewrite bool_decide_eq_false_2 by exact Hx. cbn [flat_map].
    destruct (Ascii.eqb_spec x c) as [->|Hxc].
    + rewrite bool_decide_eq_true_2 by (apply elem_of_app; right; by left). reflexivity.
    + rewrite bool_decide_eq_false_2; [reflexivity|].
      intros H. apply elem_of_app in H as [H|H]; [contradiction|].
      apply list_elem_of_singleton in H. contradiction.
Qed.

Lemma replace_all (cs P l : list ascii) :
  NoDup (P ++ cs) -> BACKSLASH ∉ cs ->
  fold_left (fun l c => replace_char c [BACKSLASH; c] l) cs
    (flat_map (fun x => if bool_decide (x ∈ P) then [BACKSLASH; x] else [x]) l)
  = flat_map (fun x => if bool_decide (x ∈ P ++ cs) then [BACKSLASH; x] else [x]) l.
Proof.
  revert P. induction cs as [|c cs IH]; intros P Hnd Hb; cbn [fold_left].
  - by rewrite app_nil_r.
  - rewrite replace_step.
    + rewrite IH; [by rewrite <- app_assoc|by rewrite <- app_assoc|].
      intros H. apply Hb. by right.
    + intros H. apply NoDup_app in Hnd as (_ & Hd & _). apply (Hd c H). by left.
    + intros ->. apply Hb. by left.
Qed.

(** X14: [sanitize_markdown] prefixes each Markdown special character
    with one backslash and leaves the other characters as they are (the
    backslashes it inserts are not escaped again); unescaping the result
    gives back the input. *)
Theorem sanitize_markdown_one_pass (text : string) :
  list_ascii_of_string (sanitize_markdown text) = flat_map escape_md (list_ascii_of_string text)
  /\ unescape_md (list_ascii_of_string (sanitize_markdown text)) = list_ascii_of_string text.
Proof.
  assert (E : list_ascii_of_string (sanitize_markdown text)
              = flat_map escape_md (list_ascii_of_string text)).
  { unfold sanitize_markdown. destruct (String.eqb_spec text "") as [->|Hne]; [reflexivity|].
    rewrite list_ascii_of_string_of_list_ascii.
    assert (Hid : forall l, flat_map (fun x => if bool_decide (x ∈ @nil ascii) then [BACKSLASH; x] else [x]) l = l).
    { induction l as [|x l IH]; [reflexivity|]. cbn [flat_map]. rewrite IH.
      rewrite bool_decide_eq_false_2 by apply not_elem_of_nil. reflexivity. }
    rewrite <- (Hid (list_ascii_of_string text)) at 1.
    rewrite replace_all; [reflexivity| |].
    - cbn [app]. unfold markdown_chars. vm_compute. (repeat constructor); vm_compute; intros H;
        repeat (apply elem_of_cons in H as [H|H]; [discriminate H|]); by apply elem_of_nil in H.
    - unfold markdown_chars. intros H.
      repeat (apply elem_of_cons in H as [H|H]; [discriminate H|]); by apply elem_of_nil in H. }
  split; [exact E|]. rewrite E. clear E.
  induction (list_ascii_of_string text) as [|x l IH]; [reflexivity|].
  cbn [flat_map]. unfold escape_md at 1.
  assert (HB : BACKSLASH ∉ markdown_chars).
  { unfold markdown_chars. intros H.
    repeat (apply elem_of_cons in H as [H|H]; [discriminate H|]); by apply elem_of_nil in H. }
  destruct (decide (x ∈ markdown_chars)) as [Hx|Hx].
  - rewrite bool_decide_eq_true_2 by exact Hx. cbn [app]. rewrite unescape_md_cons2.
    rewrite bool_decide_eq_true_2 by exact Hx. simpl. by rewrite IH.
  - rewrite bool_decide_eq_false_2 by exact Hx. cbn [app].
    destruct l as [|y l']; [reflexivity|].
    cbn [flat_map] in IH |- *. unfold escape_md at 1 in IH. unfold escape_md at 1.
    destruct (decide (y ∈ markdown_chars)) as [Hy|Hy].
    + rewrite bool_decide_eq_true_2 in IH |- * by exact Hy.
      cbn [app] in IH |- *. rewrite unescape_md_cons2.
      rewrite (bool_decide_eq_false_2 (BACKSLASH ∈ markdown_chars)) by exact HB.
      rewrite andb_false_r. rewrite IH. reflexivity.
    + rewrite bool_decide_eq_false_2 in IH |- * by exact Hy.
      cbn [app] in IH |- *. rewrite unescape_md_cons2.
      rewrite (bool_decide_eq_false_2 (y ∈ markdown_chars)) by exact Hy.
      rewrite andb_false_r. rewrite IH. reflexivity.
Qed.

Lemma py_split_go_first (sep : ascii) (cur x l : list ascii) :
  Forall (fun c => c <> sep) x ->
  py_split_go sep None cur (x ++ sep :: l) = (rev cur ++ x) :: py_split_go sep None [] l.
Proof.
  revert cur. induction x as [|c x IH]; intros cur Hx; cbn [app py_split_go].
  - rewrite Ascii.eqb_refl. by rewrite app_nil_r.
  - apply Forall_cons in Hx as [Hc Hx].
    destruct (Ascii.eqb_spec c sep); [congruence|]. rewrite IH by exact Hx.
    simpl. by rewrite <- app_assoc.
Qed.

Lemma no_colon (l : list ascii) :
  Forall (fun c => int_ws c = true) l \/ Forall (fun c => is_digit c = true) l ->
  Forall (fun c => c <> ":"%char) l.
Proof.
  intros [H|H]; (eapply Forall_impl; [exact H|]); intros c Hc ->; discriminate Hc.
Qed.

(** X15: [is_valid_time_format] (utilsvalidators.py) on "H:M", each part a
    run of decimal digits padded with characters [int()] strips
    ([int_ws]), accepts exactly when each part
    has at most 4300 digits, H is at most 23 and M at most 59. *)
Theorem time_format_digits (w1 w2 w3 w4 ds1 ds2 : list ascii) :
  all_int_ws w1 -> all_int_ws w2 -> all_int_ws w3 -> all_int_ws w4 ->
  ds1 <> [] -> ds2 <> [] -> all_digits ds1 -> all_digits ds2 ->
  is_valid_time_format (string_of_list_ascii ((w1 ++ ds1 ++ w2) ++ ":"%char :: w3 ++ ds2 ++ w4))
  = (length ds1 <=? PY_INT_MAX_STR_DIGITS)%nat && (length ds2 <=? PY_INT_MAX_STR_DIGITS)%nat
    && (digits_value ds1 <=? 23)%Z && (digits_value ds2 <=? 59)%Z.
Proof.
  intros H1 H2 H3 H4 Hn1 Hn2 Hd1 Hd2. unfold is_valid_time_format, py_split.
  rewrite list_ascii_of_string_of_list_ascii.
  rewrite py_split_go_first.
  2: { apply Forall_app; split; [apply no_colon; by left|].
       apply Forall_app; split; apply no_colon; [by right|by left]. }
  rewrite py_split_go_nosep.
  2: { apply Forall_app; split; [apply no_colon; by left|].
       apply Forall_app; split; apply no_colon; [by right|by left]. }
  cbn [rev app map].
  pose proof (py_int_signed w1 w2 ds1 [] 1 H1 H2 Hn1 Hd1 ltac:(auto)) as P1.
  pose proof (py_int_signed w3 w4 ds2 [] 1 H3 H4 Hn2 Hd2 ltac:(auto)) as P2.
  cbn [app] in P1, P2. rewrite P1.
  pose proof (digits_value_nonneg ds1). pose proof (digits_value_nonneg ds2).
  destruct (length ds1 <=? _)%nat; [|reflexivity]. rewrite P2.
  destruct (length ds2 <=? _)%nat; cbn [andb].
  - rewrite !Z.mul_1_l. destruct (Z.leb_spec 0 (digits_value ds1)); [|lia].
    destruct (Z.leb_spec 0 (digits_value ds2)); [|lia]. cbn [andb].
    destruct (digits_value ds1 <=? 23)%Z; reflexivity.
  - destruct (0 <=? 1 * digits_value ds1)%Z, (1 * digits_value ds1 <=? 23)%Z, (digits_value ds1 <=? 23)%Z; reflexivity.
Qed.

(** X16: [format_timestamp(ts, relative=True)] on a naive time [t] in
    the future by more than 0 and at most 82799 seconds (one day minus
    3601 s) returns "h hours ago", where h is between 1 and 23: the
    negative difference is taken modulo one day. *)
Theorem format_timestamp_future (fromiso_dt : string -> iso_result) (ts : string) (t now0 now1 : Z) :
  ts <> "" -> fromiso_dt ts = IsoNaive t ->
  (0 < t - now1 <= US_PER_DAY - 3601000000)%Z ->
  format_timestamp_relative fromiso_dt (Some ts) now0 now1
  = Ret (py_str ((US_PER_DAY - (t - now1)) / 1000000 / 3600) +s+ " hours ago")
  /\ (1 <= (US_PER_DAY - (t - now1)) / 1000000 / 3600 <= 23)%Z.
Proof.
  intros Hne Ht Hd. unfold US_PER_DAY in *.
  assert (Hq : ((now1 - t) / 86400000000 = -1)%Z).
  { symmetry. apply Z.div_unique with (r := (86400000000 + (now1 - t))%Z); lia. }
  assert (Hr : ((now1 - t) mod 86400000000 = 86400000000 - (t - now1))%Z).
  { symmetry. apply Z.mod_unique with (q := (-1)%Z); lia. }
  assert (Hs : (3601 <= (86400000000 - (t - now1)) / 1000000 < 86400)%Z).
  { split; [apply Z.div_le_lower_bound|apply Z.div_lt_upper_bound]; lia. }
  split.
  - unfold format_timestamp_relative.
    destruct ts as [|c s]; [congruence|]. cbv beta iota zeta. rewrite Ht.
    unfold US_PER_DAY. rewrite Hq, Hr. cbn [Z.ltb Z.compare].
    destruct (Z.ltb_spec 3600 ((86400000000 - (t - now1)) / 1000000)); [reflexivity|lia].
  - split; [apply Z.div_le_lower_bound; lia|].
    assert (((86400000000 - (t - now1)) / 1000000 / 3600 < 24)%Z)
      by (apply Z.div_lt_upper_bound; lia). lia.
Qed.

Lemma dict_delete_head (k : string) (v : job) (d : list (string * job)) :
  dict_delete k ((k, v) :: d) = d.
Proof. simpl. by rewrite String.eqb_refl. Qed.

Lemma dict_delete_skip (k : string) (kv : string * job) (d : list (string * job)) :
  k <> fst kv -> dict_delete k (kv :: d) = kv :: dict_delete k d.
Proof.
  destruct kv as [k' v]. simpl. intros Hne.
  destruct (String.eqb_spec k k'); [congruence|reflexivity].
Qed.

Lemma fold_delete_skip (ks : list string) (kv : string * job) (d : list (string * job)) :
  ~ In (fst kv) ks ->
  fold_left (fun d k => dict_delete k d) ks (kv :: d)
  = kv :: fold_left (fun d k => dict_delete k d) ks d.
Proof.
  revert d. induction ks as [|k ks IH]; intros d Hn; [reflexivity|]. cbn [fold_left].
  rewrite dict_delete_skip by (intros ->; apply Hn; by left).
  apply IH. intros H; apply Hn; by right.
Qed.

Lemma fold_delete_filter (p : string * job -> bool) (d : list (string * job)) :
  NoDup (map fst d) ->
  fold_left (fun d k => dict_delete k d) (map fst (List.filter p d)) d
  = List.filter (fun kv => negb (p kv)) d.
Proof.
  induction d as [|[k v] d IH]; intros Hnd; [reflexivity|].
  cbn [map] in Hnd. apply NoDup_cons in Hnd as [Hk Hnd].
  cbn [List.filter]. destruct (p (k, v)); cbn [negb map fold_left].
  - rewrite dict_delete_head. exact (IH Hnd).
  - rewrite fold_delete_skip; [by rewrite IH|]. cbn [fst].
    intros Hin. apply Hk. apply list_elem_of_In.
    apply in_map_iff in Hin as ([k' v'] & <- & Hin). apply filter_In in Hin as [Hin _].
    apply in_map_iff. by exists (k', v').
Qed.

Lemma map_fst_filter_NoDup (p : string * job -> bool) (d : list (string * job)) :
  NoDup (map fst d) -> NoDup (map fst (List.filter p d)).
Proof.
  induction d as [|[k v] d IH]; intros Hnd; [constructor|].
  cbn [map] in Hnd. apply NoDup_cons in Hnd as [Hk Hnd].
  cbn [List.filter]. destruct (p (k, v)); cbn [map]; [|exact (IH Hnd)].
  constructor; [|exact (IH Hnd)].
  intros Hin. apply Hk. apply list_elem_of_In in Hin. apply list_elem_of_In.
  apply in_map_iff in Hin as ([k' v'] & <- & Hin). apply filter_In in Hin as [Hin _].
  apply in_map_iff. by exists (k', v').
Qed.

Lemma existsb_filter_false {A} (f p : A -> bool) (l : list A) :
  existsb f l = false -> existsb f (List.filter p l) = false.
Proof.
  induction l as [|x l IH]; [done|]. cbn [existsb]. intros H.
  apply orb_false_iff in H as [H1 H2]. cbn [List.filter].
  destruct (p x); cbn [existsb]; [rewrite H1|]; auto.
Qed.

Lemma filter_keeps_all {A} (p : A -> bool) (l : list A) :
  (forall x, In x l -> p x = true) -> List.filter p l = l.
Proof.
  induction l as [|x l IH]; intros H; [done|]. cbn [List.filter].
  rewrite (H x (or_introl eq_refl)). f_equal. apply IH. intros y Hy. apply H. by right.
Qed.

Lemma filter_drops_all {A} (p : A -> bool) (l : list A) :
  (forall x, In x l -> p x = false) -> List.filter p l = [].
Proof.
  induction l as [|x l IH]; intros H; [done|]. cbn [List.filter].
  rewrite (H x (or_introl eq_refl)). apply IH. intros y Hy. apply H. by right.
Qed.

Lemma cleanup_expired_jobs_ok (fromisoformat : string -> iso_result) (now : Z) (st : tstate) :
  NoDup (map fst (scheduled_posts st)) ->
  existsb (fun kv => hour_overflows fromisoformat (snd kv)) (scheduled_posts st) = false ->
  cleanup_expired_jobs fromisoformat now st
  = Ret {| scheduled_posts := List.filter (fun kv => negb (expired fromisoformat now kv)) (scheduled_posts st);
           log := log st ++ (if (length (List.filter (expired fromisoformat now) (scheduled_posts st)) =? 0)%nat
                             then [] else [LCleaned (length (List.filter (expired fromisoformat now) (scheduled_posts st)))]) |}.
Proof.
  intros Hnd Ho. unfold cleanup_expired_jobs. rewrite Ho.
  change (fun kv : string * job => match job_time fromisoformat (snd kv) with
                                   | Some t => (t + US_PER_HOUR <? now)%Z | None => true end)
    with (expired fromisoformat now).
  rewrite fold_delete_filter by exact Hnd.
  rewrite <- (length_map fst (List.filter _ (scheduled_posts st))).
  destruct (map fst (List.filter (expired fromisoformat now) (scheduled_posts st))) as [|k ks];
    cbn [length Nat.eqb]; by rewrite ?app_nil_r.
Qed.

(** X17: with distinct job ids, [cleanup_expired_jobs] raises
    [OverflowError], deleting nothing, when some stored time lies within
    an hour of [datetime.max]; otherwise it keeps exactly the jobs whose
    time parses to a naive datetime at most an hour before the clock
    reading, in order, logs the number removed when it is positive, and
    a second cleanup at the same reading changes nothing. *)
Theorem cleanup_expired_jobs_filter (fromisoformat : string -> iso_result) (now : Z) (st : tstate) :
  NoDup (map fst (scheduled_posts st)) ->
  (existsb (fun kv => hour_overflows fromisoformat (snd kv)) (scheduled_posts st) = true ->
     cleanup_expired_jobs fromisoformat now st = Raise)
  /\ (existsb (fun kv => hour_overflows fromisoformat (snd kv)) (scheduled_posts st) = false ->
      let n := length (List.filter (expired fromisoformat now) (scheduled_posts st)) in
      let st' := {| scheduled_posts := List.filter (fun kv => negb (expired fromisoformat now kv))
                                                   (scheduled_posts st);
                    log := log st ++ (if (n =? 0)%nat then [] else [LCleaned n]) |} in
      cleanup_expired_jobs fromisoformat now st = Ret st'
      /\ cleanup_expired_jobs fromisoformat now st' = Ret st').
Proof.
  intros Hnd. split.
  - intros Ho. unfold cleanup_expired_jobs. by rewrite Ho.
  - intros Ho. cbv zeta. rewrite cleanup_expired_jobs_ok by assumption. split; [reflexivity|].
    rewrite cleanup_expired_jobs_ok; cbn [scheduled_posts log].
    + assert (Hk : forall kv, In kv (List.filter (fun kv => negb (expired fromisoformat now kv))
                                                 (scheduled_posts st)) -> expired fromisoformat now kv = false).
      { intros kv Hin. apply filter_In in Hin as [_ He]. by apply negb_true_iff. }
      set (keep := List.filter (fun kv => negb (expired fromisoformat now kv)) (scheduled_posts st)) in *.
      rewrite (filter_drops_all (expired fromisoformat now) keep) by exact Hk.
      rewrite (filter_keeps_all _ keep) by (intros kv Hin; by rewrite Hk).
      cbn [length Nat.eqb]. by rewrite app_nil_r.
    + by apply map_fst_filter_NoDup.
    + by apply existsb_filter_false.
Qed.

Lemma dict_delete_absent (k : string) (d : list (string * job)) :
  dict_mem k d = false -> dict_delete k d = d.
Proof.
  induction d as [|[k' v] d IH]; [reflexivity|]. unfold dict_mem. cbn.
  intros H. apply orb_false_iff in H as [H1 H2]. rewrite H1. f_equal. exact (IH H2).
Qed.

Lemma remove_scheduled_job_posts (k : string) (st : tstate) :
  scheduled_posts (snd (remove_scheduled_job k st)) = dict_delete k (scheduled_posts st)
  /\ log (snd (remove_scheduled_job k st)) = log st.
Proof.
  unfold remove_scheduled_job. destruct (dict_mem k (scheduled_posts st)) eqn:E; [auto|].
  cbn [snd]. split; [|reflexivity]. symmetry. by apply dict_delete_absent.
Qed.

Section Tick.

Variable fromisoformat : string -> iso_result.
Variable exec_raises : string -> bool.

Lemma scan_due_parsed (now : Z) (n0 : nat) (items acc : list (string * job)) (st : tstate) :
  (forall kv, In kv items -> job_time fromisoformat (snd kv) <> None) ->
  length (scheduled_posts st) = n0 ->
  scan_due fromisoformat now n0 items acc st
  = (st, Some (acc ++ List.filter (is_due fromisoformat now) items)).
Proof.
  revert acc. induction items as [|[k j] items IH]; intros acc Hp Hn; cbn [scan_due].
  - rewrite Hn, Nat.eqb_refl. cbn. by rewrite app_nil_r.
  - rewrite Hn, Nat.eqb_refl. cbn [negb].
    assert (Hj : job_time fromisoformat j <> None) by exact (Hp (k, j) (or_introl eq_refl)).
    assert (Hr : forall kv, In kv items -> job_time fromisoformat (snd kv) <> None)
      by (intros kv Hin; apply Hp; by right).
    cbn [List.filter].
    destruct (job_time fromisoformat j) as [t|] eqn:E; [|congruence].
    replace (is_due fromisoformat now (k, j)) with (t <=? now)%Z
      by (unfold is_due; cbn [snd]; by rewrite E).
    destruct (t <=? now)%Z.
    + rewrite IH by assumption. rewrite <- app_assoc. reflexivity.
    + rewrite IH by assumption. reflexivity.
Qed.

Lemma run_jobs_effect (ks : list (string * job)) : forall st,
  scheduled_posts (fold_left (run_job exec_raises) ks st)
  = fold_left (fun d k => dict_delete k d) (map fst ks) (scheduled_posts st)
  /\ log (fold_left (run_job exec_raises) ks st) = log st ++ flat_map (job_log exec_raises) ks.
Proof.
  induction ks as [|kv ks IH]; intros st; cbn [fold_left map flat_map].
  - split; [reflexivity|]. by rewrite app_nil_r.
  - destruct (IH (run_job exec_raises st kv)) as [IH1 IH2]. rewrite IH1, IH2.
    unfold run_job, job_log. destruct (exec_raises (fst kv)).
    + destruct (remove_scheduled_job_posts (fst kv)
                  (log_event (LErrorJob (fst kv)) (log_event (LExec (fst kv)) st))) as [R1 R2].
      rewrite R1, R2. cbn. split; [reflexivity|]. by rewrite <- !app_assoc.
    + destruct (remove_scheduled_job_posts (fst kv) (log_event (LExec (fst kv)) st)) as [R1 R2].
      cbn. rewrite R1, R2. cbn. split; [reflexivity|]. by rewrite <- !app_assoc.
Qed.

End Tick.

Lemma tick_effect (fromisoformat : string -> iso_result) (exec_raises : string -> bool)
    (now c : Z) (st : tstate) :
  NoDup (map fst (scheduled_posts st)) ->
  (forall kv, In kv (scheduled_posts st) -> job_time fromisoformat (snd kv) <> None) ->
  existsb (fun kv => hour_overflows fromisoformat (snd kv)) (scheduled_posts st) = false ->
  run_scheduled_jobs fromisoformat exec_raises now c st
  = {| scheduled_posts :=
         List.filter (fun kv => negb (expired fromisoformat c kv))
           (List.filter (fun kv => negb (is_due fromisoformat now kv)) (scheduled_posts st));
       log := log st ++ flat_map (job_log exec_raises) (List.filter (is_due fromisoformat now) (scheduled_posts st))
              ++ (let n := length (List.filter (expired fromisoformat c)
                             (List.filter (fun kv => negb (is_due fromisoformat now kv)) (scheduled_posts st))) in
                  if (n =? 0)%nat then [] else [LCleaned n]) |}.
Proof.
  intros Hnd Hp Ho. unfold run_scheduled_jobs.
  rewrite scan_due_parsed by (exact Hp || reflexivity). cbn [app].
  destruct (run_jobs_effect exec_raises (List.filter (is_due fromisoformat now) (scheduled_posts st)) st)
    as [R1 R2].
  rewrite fold_delete_filter in R1 by exact Hnd.
  set (st1 := fold_left (run_job exec_raises) _ st) in *. clearbody st1.
  rewrite cleanup_expired_jobs_ok.
  - rewrite R1, R2, <- app_assoc. reflexivity.
  - rewrite R1. by apply map_fst_filter_NoDup.
  - rewrite R1. by apply existsb_filter_false.
Qed.

(** X18: when the job ids are distinct, every stored time parses to a
    naive datetime and none lies within an hour of [datetime.max], a tick
    of [run_scheduled_jobs] (scan at clock reading [now], cleanup at its
    own reading [c]) keeps exactly the jobs neither due at [now] nor
    expired at [c], executes and logs every due job once, in the store's
    order, whether or not its execution raises, and then logs the number
    of expired jobs removed when it is positive. *)
Theorem tick_well_formed (fromisoformat : string -> iso_result) (exec_raises : string -> bool)
    (now c : Z) (st : tstate) :
  NoDup (map fst (scheduled_posts st)) ->
  (forall kv, In kv (scheduled_posts st) -> job_time fromisoformat (snd kv) <> None) ->
  existsb (fun kv => hour_overflows fromisoformat (snd kv)) (scheduled_posts st) = false ->
  let st' := run_scheduled_jobs fromisoformat exec_raises now c st in
  let waiting := List.filter (fun kv => negb (is_due fromisoformat now kv)) (scheduled_posts st) in
  let n := length (List.filter (expired fromisoformat c) waiting) in
  scheduled_posts st' = List.filter (fun kv => negb (expired fromisoformat c kv)) waiting
  /\ log st' = log st ++ flat_map (job_log exec_raises)
                                  (List.filter (is_due fromisoformat now) (scheduled_posts st))
               ++ (if (n =? 0)%nat then [] else [LCleaned n]).
Proof.
  intros Hnd Hp Ho. cbv zeta. rewrite (tick_effect fromisoformat exec_raises now c st Hnd Hp Ho).
  split; reflexivity.
Qed.

(** X1: under the same conditions, a tick leaves no job that is due at
    the scan's clock reading or expired at the cleanup's, and a second
    tick with the same two readings changes neither the store nor the
    log: no job is executed twice. *)
Theorem tick_repeat_is_noop (fromisoformat : string -> iso_result) (exec_raises : string -> bool)
    (now c : Z) (st : tstate) :
  NoDup (map fst (scheduled_posts st)) ->
  (forall kv, In kv (scheduled_posts st) -> job_time fromisoformat (snd kv) <> None) ->
  existsb (fun kv => hour_overflows fromisoformat (snd kv)) (scheduled_posts st) = false ->
  let st' := run_scheduled_jobs fromisoformat exec_raises now c st in
  (forall kv, In kv (scheduled_posts st') ->
     is_due fromisoformat now kv = false /\ expired fromisoformat c kv = false)
  /\ run_scheduled_jobs fromisoformat exec_raises now c st' = st'.
Proof.
  intros Hnd Hp Ho. cbv zeta. rewrite (tick_effect fromisoformat exec_raises now c st Hnd Hp Ho).
  set (keep := List.filter (fun kv => negb (expired fromisoformat c kv))
                 (List.filter (fun kv => negb (is_due fromisoformat now kv)) (scheduled_posts st))).
  set (L := log st ++ _).
  assert (Hk : forall kv, In kv keep ->
            In kv (scheduled_posts st) /\ is_due fromisoformat now kv = false
            /\ expired fromisoformat c kv = false).
  { intros kv Hin. subst keep. apply filter_In in Hin as [Hin He]. apply filter_In in Hin as [Hin Hd].
    apply negb_true_iff in He, Hd. auto. }
  split; [intros kv Hin; cbn [scheduled_posts] in Hin; by destruct (Hk kv Hin) as (_ & ? & ?)|].
  assert (Hnd' : NoDup (map fst keep)) by (subst keep; by do 2 apply map_fst_filter_NoDup).
  assert (Hp' : forall kv, In kv keep -> job_time fromisoformat (snd kv) <> None)
    by (intros kv Hin; apply Hp; apply Hk, Hin).
  assert (Ho' : existsb (fun kv => hour_overflows fromisoformat (snd kv)) keep = false)
    by (subst keep; by do 2 apply existsb_filter_false).
  rewrite (tick_effect fromisoformat exec_raises now c {| scheduled_posts := keep; log := L |} Hnd' Hp' Ho').
  cbn [scheduled_posts log].
  rewrite (filter_drops_all (is_due fromisoformat now) keep) by (intros kv Hin; apply Hk, Hin).
  rewrite (filter_keeps_all (fun kv => negb (is_due fromisoformat now kv)) keep)
    by (intros kv Hin; by rewrite (proj1 (proj2 (Hk kv Hin)))).
  rewrite (filter_drops_all (expired fromisoformat c) keep) by (intros kv Hin; apply Hk, Hin).
  rewrite (filter_keeps_all (fun kv => negb (expired fromisoformat c kv)) keep)
    by (intros kv Hin; by rewrite (proj2 (proj2 (Hk kv Hin)))).
  cbn. by rewrite app_nil_r.
Qed.

Lemma validate_user_id_decimal_witness :
  let ok := (length ["4"%char; "2"%char] <=? PY_INT_MAX_STR_DIGITS)%nat
            && (0 <? digits_value ["4"%char; "2"%char])%Z
            && (digits_value ["4"%char; "2"%char] <? 10 ^ 10)%Z in
  validate_user_id (string_of_list_ascii ([" "%char] ++ ["4"%char; "2"%char] ++ [])) = ok
  /\ validate_user_id (string_of_list_ascii ([" "%char] ++ ("+"%char :: ["4"%char; "2"%char]) ++ [])) = ok
  /\ validate_user_id (string_of_list_ascii ([" "%char] ++ ("-"%char :: ["4"%char; "2"%char]) ++ [])) = false.
Proof.
  apply (validate_user_id_decimal [" "%char] [] ["4"%char; "2"%char]);
    [repeat constructor|constructor|discriminate|repeat constructor].
Defined.


Lemma schedule_keyboard_routes_witness :
  let kb := create_schedule_list_keyboard (fun _ => None) [("k", job_at "2024-05-10T09:00:00")] in
  let b := nth 0 (concat kb) dummy_button in
  (exists job_id j, In (job_id, j) (take 10 [("k", job_at "2024-05-10T09:00:00")])
                    /\ button_handler ["7"] "7" (b_data b) = Ret (ADetail job_id))
  \/ button_handler ["7"] "7" (b_data b) = Ret (ACallback "main_menu").
Proof.
  apply (schedule_keyboard_routes (fun _ => None) ["7"] "7").
  - by apply list_elem_of_singleton.
  - apply nth_In. vm_compute. lia.
Defined.

Lemma execute_post_counts_witness :
  match execute_post (fun n => Nat.even n) settings_w "7" "2024-05-10T09:00:00" session_w stats_w ∅ with
  | (sess', stt', ast', st) =>
      (successful_posts st + failed_posts st = length (s_selected session_w) * length (s_batch session_w))%nat
      /\ st_posts stt' = (st_posts stats_w + successful_posts st)%nat
      /\ (forall ch, In ch (s_selected session_w) -> exists a b,
            channel_results st !! ch = Some (a, b) /\ (a + b = length (s_batch session_w))%nat)
      /\ (let a0 := default {| a_posts := 0; a_batches := 0; a_last_action := None |}
                      ((∅ : gmap string admin_stat) !! "7") in
          ast' !! "7" = Some {| a_posts := S (a_posts a0); a_batches := S (a_batches a0);
                                a_last_action := Some "2024-05-10T09:00:00" |})
  end.
Proof.
  apply (execute_post_counts (fun n => Nat.even n) settings_w "7" "2024-05-10T09:00:00" session_w stats_w ∅).
  - vm_compute. discriminate.
  - discriminate.
  - discriminate.
Defined.

Lemma scheduled_job_counts_witness :
  let st := job_channels (fun n => Nat.even n) settings_w ["-1001111111111"; "-1002222222222"]
              [MText "hello" "Markdown"; MOther "sticker"] dstate0 in
  (successful_posts st + failed_posts st = 2 * 2)%nat.
Proof.
  apply (scheduled_job_counts (fun n => Nat.even n) settings_w ["-1001111111111"; "-1002222222222"]
           [MText "hello" "Markdown"; MOther "sticker"]).
  vm_compute. discriminate.
Defined.

Lemma time_format_digits_witness :
  is_valid_time_format (string_of_list_ascii (([] ++ ["1"%char; "2"%char] ++ []) ++ ":"%char
                                              :: [" "%char] ++ ["3"%char; "0"%char] ++ []))
  = (length ["1"%char; "2"%char] <=? PY_INT_MAX_STR_DIGITS)%nat
    && (length ["3"%char; "0"%char] <=? PY_INT_MAX_STR_DIGITS)%nat
    && (digits_value ["1"%char; "2"%char] <=? 23)%Z && (digits_value ["3"%char; "0"%char] <=? 59)%Z.
Proof.
  apply time_format_digits; first [discriminate | repeat constructor].
Defined.

Lemma format_timestamp_future_witness :
  format_timestamp_relative fromiso_w (Some "2024-05-10T12:00:00") 0 0
  = Ret (py_str ((US_PER_DAY - (7200000000 - 0)) / 1000000 / 3600) +s+ " hours ago")
  /\ (1 <= (US_PER_DAY - (7200000000 - 0)) / 1000000 / 3600 <= 23)%Z.
Proof.
  apply (format_timestamp_future fromiso_w "2024-05-10T12:00:00" 7200000000 0 0).
  - discriminate.
  - reflexivity.
  - unfold US_PER_DAY. lia.
Defined.

Lemma cleanup_expired_jobs_filter_witness :
  cleanup_expired_jobs fromiso_two 7200000000 (tstate_of jobs_w)
    = Ret {| scheduled_posts := [("b", job_at "2024-05-10T12:00:00")]; log := [LCleaned 2] |}
  /\ cleanup_expired_jobs fromiso_two 7200000000
       (tstate_of (jobs_w ++ [("d", job_at "9999-12-31T23:30:00")])) = Raise.
Proof.
  split.
  - destruct (cleanup_expired_jobs_filter fromiso_two 7200000000 (tstate_of jobs_w)) as [_ H].
    + apply (bool_decide_unpack _). vm_compute. reflexivity.
    + destruct (H eq_refl) as [H1 _]. rewrite H1. vm_compute. reflexivity.
  - destruct (cleanup_expired_jobs_filter fromiso_two 7200000000
                (tstate_of (jobs_w ++ [("d", job_at "9999-12-31T23:30:00")]))) as [H _].
    + apply (bool_decide_unpack _). vm_compute. reflexivity.
    + exact (H eq_refl).
Defined.

Lemma tick_well_formed_witness :
  let st := tstate_of (take 2 jobs_w) in
  let st' := run_scheduled_jobs fromiso_two (fun k => String.eqb k "a") 60 14400000001 st in
  let waiting := List.filter (fun kv => negb (is_due fromiso_two 60 kv)) (scheduled_posts st) in
  let n := length (List.filter (expired fromiso_two 14400000001) waiting) in
  scheduled_posts st' = List.filter (fun kv => negb (expired fromiso_two 14400000001 kv)) waiting
  /\ log st' = log st ++ flat_map (job_log (fun k => String.eqb k "a"))
                                  (List.filter (is_due fromiso_two 60) (scheduled_posts st))
               ++ (if (n =? 0)%nat then [] else [LCleaned n]).
Proof.
  apply tick_well_formed.
  - apply (bool_decide_unpack _). vm_compute. reflexivity.
  - intros kv [<-|[<-|[]]]; discriminate.
  - reflexivity.
Defined.

Lemma tick_repeat_is_noop_witness :
  let st' := run_scheduled_jobs fromiso_two (fun _ => false) 60 60 (tstate_of (take 2 jobs_w)) in
  (forall kv, In kv (scheduled_posts st') ->
     is_due fromiso_two 60 kv = false /\ expired fromiso_two 60 kv = false)
  /\ run_scheduled_jobs fromiso_two (fun _ => false) 60 60 st' = st'.
Proof.
  apply tick_repeat_is_noop.
  - apply (bool_decide_unpack _). vm_compute. reflexivity.
  - intros kv [<-|[<-|[]]]; discriminate.
  - reflexivity.
Defined.
